(** * Route validation (pkg/apis/serving/v1alpha1/route_validation.go)

    A shallow embedding of [Route.Validate], [RouteSpec.Validate] and
    [TrafficTarget.Validate], together with the structured error values they
    build, and the properties of the validators. *)

From Stdlib Require Import ZArith String Ascii List Bool Lia DecimalString DecimalZ.
From stdpp Require Import gmap strings list.

Import ListNotations.

(** ** Go's [int] and [fmt] verbs *)

Module goint.

(** [int] on the 64-bit platforms the controller is built for: a signed
    two's complement word; [+] wraps around. *)
Definition intSize : Z := 64.
Definition minInt : Z := (- 2 ^ (intSize - 1))%Z.
Definition maxInt : Z := (2 ^ (intSize - 1) - 1)%Z.

Definition inRange (z : Z) : Prop := (minInt <= z <= maxInt)%Z.

Definition wrap (z : Z) : Z :=
  ((z - minInt) mod 2 ^ intSize + minInt)%Z.

Definition add (a b : Z) : Z := wrap (a + b).

End goint.

Module fmt.

(** The verb [%d]: decimal digits, with a leading minus sign for a
    negative number. *)
Definition d (z : Z) : string := NilEmpty.string_of_int (Z.to_int z).

End fmt.

(** ** The structured error model (package [apis]) *)

Module apis.

(** Modelled from the spec: the message of a finding. Package [apis] is not
    part of the sources at hand; the six findings made by its constructors
    are recorded by constructor and by the values they carry, and the text
    of a message that route_validation.go formats itself is kept as text. *)
Inductive Msg : Type :=
| MsgMissingField
| MsgMultipleOneOf
| MsgMissingOneOf
| MsgInvalidKeyName (key : string)
| MsgOutOfBoundsValue (value lower upper : Z)
| MsgDisallowedFields
| MsgText (text : string).

(** Modelled from the spec: one finding, a message, the field paths it
    applies to and the attached sub-violation messages. The fields
    [Message] and [Paths] are the ones the struct literals of
    route_validation.go set. *)
Record Finding : Type := mkFinding {
  Message : Msg;
  Paths : list string;
  Details : list string
}.

(** Modelled from the spec: a structured error is the ordered sequence of
    its findings; the absent error ([nil] in Go) is the empty sequence. *)
Abbreviation FieldError := (list Finding).

Definition absent : FieldError := [].

(** Modelled from the spec: the current (top-level) path. *)
Definition CurrentField : string := EmptyString.

(** Modelled from the spec: [merge]. Both sides are kept, in order; the
    absent error is its identity. *)
Definition Also (fe errs : FieldError) : FieldError := fe ++ errs.

Definition startsWithBracket (p : string) : bool :=
  match p with
  | String c _ => Ascii.eqb c "["%char
  | EmptyString => false
  end.

(** Modelled from the spec: a path extended at the front by one segment;
    the current path becomes the segment itself, an index segment is glued
    to the segment before it, and a field name is joined with a dot. *)
Definition joinPath (prefix path : string) : string :=
  match path with
  | EmptyString => prefix
  | _ => if startsWithBracket path then prefix +:+ path
         else prefix +:+ "." +:+ path
  end.

(** Modelled from the spec: [withFieldPrefix]. *)
Definition ViaField (prefix : string) (fe : FieldError) : FieldError :=
  map (fun e => mkFinding (Message e) (map (joinPath prefix) (Paths e)) (Details e)) fe.

Definition asIndex (index : nat) : string :=
  "[" +:+ fmt.d (Z.of_nat index) +:+ "]".

(** Modelled from the spec: [withIndexPrefix]. *)
Definition ViaIndex (index : nat) (fe : FieldError) : FieldError :=
  ViaField (asIndex index) fe.

Definition ViaFieldIndex (field : string) (index : nat) (fe : FieldError) : FieldError :=
  ViaField field (ViaIndex index fe).

(** Modelled from the spec: the constructors of the findings of package
    [apis]. *)
Definition ErrMissingField (fieldPaths : list string) : FieldError :=
  [mkFinding MsgMissingField fieldPaths []].

Definition ErrMultipleOneOf (fieldPaths : list string) : FieldError :=
  [mkFinding MsgMultipleOneOf fieldPaths []].

Definition ErrMissingOneOf (fieldPaths : list string) : FieldError :=
  [mkFinding MsgMissingOneOf fieldPaths []].

Definition ErrInvalidKeyName (key fieldPath : string) (details : list string) : FieldError :=
  [mkFinding (MsgInvalidKeyName key) [fieldPath] details].

Definition ErrOutOfBoundsValue (value lower upper : Z) (fieldPath : string) : FieldError :=
  [mkFinding (MsgOutOfBoundsValue value lower upper) [fieldPath] []].

Definition ErrDisallowedFields (fieldPaths : list string) : FieldError :=
  [mkFinding MsgDisallowedFields fieldPaths []].

(** The kinds of finding. *)
Inductive Kind : Type :=
| MissingField | MultipleOneOf | MissingOneOf | InvalidKeyName
| OutOfBoundsValue | DisallowedFields | DuplicateDefinition | SumMismatch.

Definition Kind_eqb (a b : Kind) : bool :=
  match a, b with
  | MissingField, MissingField | MultipleOneOf, MultipleOneOf
  | MissingOneOf, MissingOneOf | InvalidKeyName, InvalidKeyName
  | OutOfBoundsValue, OutOfBoundsValue | DisallowedFields, DisallowedFields
  | DuplicateDefinition, DuplicateDefinition | SumMismatch, SumMismatch => true
  | _, _ => false
  end.

(** A text message is recognised by the fixed words it starts with. *)
Definition kindOf (e : Finding) : option Kind :=
  match Message e with
  | MsgMissingField => Some MissingField
  | MsgMultipleOneOf => Some MultipleOneOf
  | MsgMissingOneOf => Some MissingOneOf
  | MsgInvalidKeyName _ => Some InvalidKeyName
  | MsgOutOfBoundsValue _ _ _ => Some OutOfBoundsValue
  | MsgDisallowedFields => Some DisallowedFields
  | MsgText t =>
      if String.prefix "Multiple definitions for " t then Some DuplicateDefinition
      else if String.prefix "Traffic targets sum to " t then Some SumMismatch
      else None
  end.

Definition hasKind (k : Kind) (e : Finding) : bool :=
  match kindOf e with
  | Some k' => Kind_eqb k k'
  | None => false
  end.

(** The findings of one kind, in order. *)
Definition ofKind (k : Kind) (fe : FieldError) : FieldError :=
  List.filter (hasKind k) fe.

End apis.

Import apis(FieldError).

(** ** The data model (route_types.go) *)

(** Modelled from the spec: the declarations of [TrafficTarget], [RouteSpec]
    and [Route] are not part of the sources at hand; the fields are the ones
    route_validation.go reads. [Percent] is added to the [int] variable
    [percentSum], so it is an [int]: its values lie in [goint.inRange]. *)
Record TrafficTarget : Type := mkTrafficTarget {
  Name : string;
  RevisionName : string;
  ConfigurationName : string;
  Percent : Z;
  URL : string
}.

(** Modelled from the spec: the ordered targets and the deprecated scalar. *)
Record RouteSpec : Type := mkRouteSpec {
  DeprecatedGeneration : Z;
  Traffic : list TrafficTarget
}.

Definition isEmptyString (s : string) : bool :=
  match s with
  | EmptyString => true
  | String _ _ => false
  end.

(** [equality.Semantic.DeepEqual(rs, &RouteSpec{})]: every field has its zero
    value; an empty slice and a nil slice are the same. *)
Definition isZeroRouteSpec (rs : RouteSpec) : bool :=
  (DeprecatedGeneration rs =? 0)%Z &&
  match Traffic rs with
  | [] => true
  | _ :: _ => false
  end.

(** The value of [percentSum] after the loop: the weights added one by one
    with Go's [+], from the left. *)
Definition runningTotal (traffic : list TrafficTarget) : Z :=
  fold_left (fun acc t => goint.add acc (Percent t)) traffic 0%Z.

(** The sum of the weights as integers. *)
Definition sumOfWeights (traffic : list TrafficTarget) : Z :=
  fold_right (fun t acc => (Percent t + acc)%Z) 0%Z traffic.

(** No partial sum of the weights leaves the range of [int]. *)
Definition noOverflow (traffic : list TrafficTarget) : Prop :=
  forall k : nat, goint.inRange (sumOfWeights (firstn k traffic)).

(** The indices, counted from [i], of the targets named [name]. *)
Fixpoint indicesOf (name : string) (i : nat) (traffic : list TrafficTarget) : list nat :=
  match traffic with
  | [] => []
  | t :: rest =>
      if String.eqb (Name t) name then i :: indicesOf name (S i) rest
      else indicesOf name (S i) rest
  end.

(** A Spec whose two weights are out of bounds and sum to 100. *)
Definition outOfBoundsSpec : RouteSpec :=
  mkRouteSpec 0
    [mkTrafficTarget EmptyString "blue" EmptyString 150 EmptyString;
     mkTrafficTarget EmptyString "green" EmptyString (-50) EmptyString].

(** A Spec with one weight out of bounds whose weights sum to 150. *)
Definition overweightSpec : RouteSpec :=
  mkRouteSpec 0
    [mkTrafficTarget EmptyString "blue" EmptyString 150 EmptyString;
     mkTrafficTarget EmptyString "green" EmptyString 0 EmptyString].

(** A Spec whose three weights fit an [int] each and together exceed it:
    their sum is 2^64 + 100. *)
Definition overflowSpec : RouteSpec :=
  mkRouteSpec 0
    [mkTrafficTarget EmptyString "blue" EmptyString goint.maxInt EmptyString;
     mkTrafficTarget EmptyString "green" EmptyString goint.maxInt EmptyString;
     mkTrafficTarget EmptyString "red" EmptyString 102 EmptyString].

(** A Spec that splits the traffic evenly between a revision and a
    configuration. *)
Definition evenSpec : RouteSpec :=
  mkRouteSpec 0
    [mkTrafficTarget EmptyString "blue" EmptyString 50 EmptyString;
     mkTrafficTarget EmptyString EmptyString "main" 50 EmptyString].

(** A Spec whose weights sum to 90. *)
Definition unevenSpec : RouteSpec :=
  mkRouteSpec 0
    [mkTrafficTarget EmptyString "blue" EmptyString 60 EmptyString;
     mkTrafficTarget EmptyString "green" EmptyString 30 EmptyString].

(** A Spec in which the name "a" is given to the targets 0, 2 and 4, and
    the target 1 has no name. *)
Definition repeatedNameSpec : RouteSpec :=
  mkRouteSpec 0
    [mkTrafficTarget "a" "blue" EmptyString 20 EmptyString;
     mkTrafficTarget EmptyString "green" EmptyString 20 EmptyString;
     mkTrafficTarget "a" "blue" EmptyString 20 EmptyString;
     mkTrafficTarget "b" EmptyString "main" 20 EmptyString;
     mkTrafficTarget "a" "red" EmptyString 20 EmptyString].

(** The findings of the destination-selector rule. *)
Definition isSelectorFinding (e : apis.Finding) : bool :=
  apis.hasKind apis.MultipleOneOf e || apis.hasKind apis.MissingOneOf e
  || apis.hasKind apis.InvalidKeyName e.

Definition selectorFindings (fe : FieldError) : FieldError :=
  List.filter isSelectorFinding fe.

(** A finding whose message is text. *)
Definition isText (e : apis.Finding) : bool :=
  match apis.Message e with
  | apis.MsgText _ => true
  | _ => false
  end.

(** The kinds of finding the loop and the sum check produce. *)
Definition ownKind (k : apis.Kind) : Prop :=
  In k [apis.MultipleOneOf; apis.MissingOneOf; apis.InvalidKeyName;
        apis.OutOfBoundsValue; apis.DisallowedFields;
        apis.DuplicateDefinition; apis.SumMismatch].

(** The names of the targets that have one, in order. *)
Definition namesOf (traffic : list TrafficTarget) : list string :=
  List.filter (fun n => negb (isEmptyString n)) (map Name traffic).

(** The index of the first target named [name]. *)
Definition firstIndexOf (name : string) (traffic : list TrafficTarget) : option nat :=
  head (indicesOf name 0 traffic).

(** Sample collaborators, to run the validators on concrete routes. *)
Module Sample.

Definition doubleQuote : string := String (ascii_of_nat 34) EmptyString.

Definition Quote (s : string) : string := doubleQuote +:+ s +:+ doubleQuote.

Definition CheckDeprecated (_ : unit) (fields : list (string * Z)) : FieldError :=
  flat_map (fun f => if (snd f =? 0)%Z then [] else apis.ErrDisallowedFields [fst f]) fields.

Definition IsQualifiedName (s : string) : list string :=
  if (63 <? String.length s)%nat then ["must be no more than 63 characters"] else [].

End Sample.

Section Validation.

Set Default Proof Using "Type".

(** The collaborators outside this file. *)
Variable context : Type.
Variable WithinSpec : context -> context.
Variable ObjectMeta : Type.
Variable ValidateObjectMetadata : ObjectMeta -> FieldError.
Variable CheckDeprecated : context -> list (string * Z) -> FieldError.
Variable IsQualifiedName : string -> list string.
(** [%q] of package fmt: the quoted form of a string. *)
Variable Quote : string -> string.

Record Route : Type := mkRoute {
  GetObjectMeta : ObjectMeta;
  Spec : RouteSpec
}.

(** [TrafficTarget.Validate]. *)
Definition TrafficTarget_Validate (ctx : context) (tt : TrafficTarget) : FieldError :=
  let errs : FieldError :=
    if negb (isEmptyString (RevisionName tt)) && negb (isEmptyString (ConfigurationName tt)) then
      apis.ErrMultipleOneOf ["revisionName"; "configurationName"]
    else if negb (isEmptyString (RevisionName tt)) then
      let verrs := IsQualifiedName (RevisionName tt) in
      if (0 <? length verrs)%nat then
        apis.ErrInvalidKeyName (RevisionName tt) "revisionName" verrs
      else apis.absent
    else if negb (isEmptyString (ConfigurationName tt)) then
      let verrs := IsQualifiedName (ConfigurationName tt) in
      if (0 <? length verrs)%nat then
        apis.ErrInvalidKeyName (ConfigurationName tt) "configurationName" verrs
      else apis.absent
    else
      apis.ErrMissingOneOf ["revisionName"; "configurationName"] in
  let errs :=
    if (Percent tt <? 0)%Z || (Percent tt >? 100)%Z then
      apis.Also errs (apis.ErrOutOfBoundsValue (Percent tt) 0 100 "percent")
    else errs in
  let errs :=
    if negb (isEmptyString (URL tt)) then
      apis.Also errs (apis.ErrDisallowedFields ["url"])
    else errs in
  errs.

(** What each of the three rules of [TrafficTarget.Validate] adds to the
    result, rule by rule; [targetValidate_rules] proves that the code above
    returns the three one after the other. *)
Definition selectorRule (tt : TrafficTarget) : FieldError :=
  match isEmptyString (RevisionName tt), isEmptyString (ConfigurationName tt) with
  | false, false => apis.ErrMultipleOneOf ["revisionName"; "configurationName"]
  | false, true =>
      match IsQualifiedName (RevisionName tt) with
      | [] => apis.absent
      | verrs => apis.ErrInvalidKeyName (RevisionName tt) "revisionName" verrs
      end
  | true, false =>
      match IsQualifiedName (ConfigurationName tt) with
      | [] => apis.absent
      | verrs => apis.ErrInvalidKeyName (ConfigurationName tt) "configurationName" verrs
      end
  | true, true => apis.ErrMissingOneOf ["revisionName"; "configurationName"]
  end.

Definition boundsRule (tt : TrafficTarget) : FieldError :=
  if (Percent tt <? 0)%Z || (Percent tt >? 100)%Z
  then apis.ErrOutOfBoundsValue (Percent tt) 0 100 "percent" else apis.absent.

Definition urlRule (tt : TrafficTarget) : FieldError :=
  if isEmptyString (URL tt) then apis.absent else apis.ErrDisallowedFields ["url"].

(** The literal of lines 64-70: the message names the duplicate with [%q],
    the paths are the entry recorded in the map and the current index. *)
Definition multipleDefinitions (name : string) (ent i : nat) : apis.Finding :=
  apis.mkFinding
    (apis.MsgText ("Multiple definitions for " +:+ Quote name))
    ["traffic[" +:+ fmt.d (Z.of_nat ent) +:+ "].name";
     "traffic[" +:+ fmt.d (Z.of_nat i) +:+ "].name"]
    [].

(** A finding whose message is the one built for the duplicated [name]. *)
Definition namesDuplicate (name : string) (e : apis.Finding) : bool :=
  match apis.Message e with
  | apis.MsgText t => String.eqb t ("Multiple definitions for " +:+ Quote name)
  | _ => false
  end.

(** The literal of lines 75-78. *)
Definition sumMismatch (percentSum : Z) : apis.Finding :=
  apis.mkFinding
    (apis.MsgText ("Traffic targets sum to " +:+ fmt.d percentSum +:+ ", want 100"))
    ["traffic"]
    [].

(** The variables the loop of [RouteSpec.Validate] updates. *)
Record loopState : Type := mkLoopState {
  errs : FieldError;
  percentSum : Z;
  trafficMap : gmap string nat
}.

(** One iteration of [for i, tt := range rs.Traffic]. *)
Definition loopBody (ctx : context) (st : loopState) (i : nat) (tt : TrafficTarget) : loopState :=
  let errs' := apis.Also (errs st)
                 (apis.ViaFieldIndex "traffic" i (TrafficTarget_Validate ctx tt)) in
  let percentSum' := goint.add (percentSum st) (Percent tt) in
  if isEmptyString (Name tt) then
    mkLoopState errs' percentSum' (trafficMap st)
  else
    match trafficMap st !! Name tt with
    | None => mkLoopState errs' percentSum' (<[Name tt := i]> (trafficMap st))
    | Some ent =>
        mkLoopState (apis.Also errs' [multipleDefinitions (Name tt) ent i])
          percentSum' (trafficMap st)
    end.

Fixpoint rangeTraffic (ctx : context) (st : loopState) (i : nat)
    (traffic : list TrafficTarget) : loopState :=
  match traffic with
  | [] => st
  | target :: rest => rangeTraffic ctx (loopBody ctx st i target) (S i) rest
  end.

(** What one iteration adds to [errs] for a repeated name, and what it
    records in [trafficMap]. *)
Definition duplicateOf (m : gmap string nat) (i : nat) (tt : TrafficTarget) : FieldError :=
  if isEmptyString (Name tt) then []
  else match m !! Name tt with
       | Some ent => [multipleDefinitions (Name tt) ent i]
       | None => []
       end.

Definition recordName (m : gmap string nat) (i : nat) (tt : TrafficTarget) : gmap string nat :=
  if isEmptyString (Name tt) then m
  else match m !! Name tt with
       | Some _ => m
       | None => <[Name tt := i]> m
       end.

(** [RouteSpec.Validate]. *)
Definition RouteSpec_Validate (ctx : context) (rs : RouteSpec) : FieldError :=
  if isZeroRouteSpec rs then apis.ErrMissingField [apis.CurrentField]
  else
    let errs0 := CheckDeprecated ctx [("generation", DeprecatedGeneration rs)] in
    let st := rangeTraffic ctx (mkLoopState errs0 0 ∅) 0 (Traffic rs) in
    if negb (percentSum st =? 100)%Z then
      apis.Also (errs st) [sumMismatch (percentSum st)]
    else errs st.

(** [Route.Validate]. *)
Definition Route_Validate (ctx : context) (r : Route) : FieldError :=
  let errs := apis.ViaField "metadata" (ValidateObjectMetadata (GetObjectMeta r)) in
  apis.Also errs (apis.ViaField "spec" (RouteSpec_Validate (WithinSpec ctx) (Spec r))).

(** The state of the loop when it ends. *)
Definition finalState (ctx : context) (rs : RouteSpec) : loopState :=
  rangeTraffic ctx
    (mkLoopState (CheckDeprecated ctx [("generation", DeprecatedGeneration rs)]) 0 ∅)
    0 (Traffic rs).

(** The targets a finding of the loop about a duplicate refers to. *)
Definition refersTo (all : list TrafficTarget) (e : apis.Finding) : Prop :=
  exists (name : string) (ent k : nat) (tj tk : TrafficTarget),
    e = multipleDefinitions name ent k
    /\ name <> EmptyString
    /\ all !! ent = Some tj /\ Name tj = name
    /\ all !! k = Some tk /\ Name tk = name.

(** The loop without its map: the finding about the name of the target [tt]
    at the index [i] of [all], one when the name is not empty and an earlier
    target has it. *)
Definition duplicateAt (all : list TrafficTarget) (i : nat) (tt : TrafficTarget) : FieldError :=
  if isEmptyString (Name tt) then []
  else match firstIndexOf (Name tt) all with
       | Some j => if (j <? i)%nat then [multipleDefinitions (Name tt) j i] else []
       | None => []
       end.

(** The findings of the targets [rest], the first of them at the index [i]
    of [all]: for each target what the Target Validator returns, under
    traffic[i], then the finding about its name. *)
Fixpoint findingsFrom (ctx : context) (all : list TrafficTarget) (i : nat)
    (rest : list TrafficTarget) : FieldError :=
  match rest with
  | [] => []
  | target :: rest' =>
      apis.ViaFieldIndex "traffic" i (TrafficTarget_Validate ctx target)
      ++ duplicateAt all i target ++ findingsFrom ctx all (S i) rest'
  end.

(** What [trafficMap] holds once the targets [seen] have been visited. *)
Definition recordsFirst (seen : list TrafficTarget) (m : gmap string nat) : Prop :=
  m !! EmptyString = None
  /\ forall n : string, n <> EmptyString -> m !! n = firstIndexOf n seen.

(** * Properties *)

(** Forget the collaborators a statement does not mention. *)
Ltac unused :=
  try clear ValidateObjectMetadata; try clear ObjectMeta; try clear WithinSpec;
  try clear CheckDeprecated; try clear Quote; try clear IsQualifiedName.

Lemma isEmptyString_true (s : string) : isEmptyString s = true <-> s = EmptyString.
Proof. destruct s; simpl; split; congruence. Qed.

Lemma isEmptyString_false (s : string) : isEmptyString s = false <-> s <> EmptyString.
Proof. destruct s; simpl; split; congruence. Qed.

Lemma outside_bounds_true (p : Z) :
  (p <? 0)%Z || (p >? 100)%Z = true <-> (p < 0 \/ p > 100)%Z.
Proof. rewrite orb_true_iff, Z.gtb_ltb, !Z.ltb_lt. lia. Qed.

Lemma outside_bounds_false (p : Z) :
  (p <? 0)%Z || (p >? 100)%Z = false <-> (0 <= p <= 100)%Z.
Proof. rewrite orb_false_iff, Z.gtb_ltb, !Z.ltb_ge. lia. Qed.

(** ** The Target Validator *)

Lemma targetValidate_rules (ctx : context) (tt : TrafficTarget) :
  TrafficTarget_Validate ctx tt = selectorRule tt ++ boundsRule tt ++ urlRule tt.
Proof.
  unfold TrafficTarget_Validate, selectorRule, boundsRule, urlRule, apis.Also.
  destruct (isEmptyString (RevisionName tt)), (isEmptyString (ConfigurationName tt)),
    ((Percent tt <? 0)%Z || (Percent tt >? 100)%Z), (isEmptyString (URL tt));
    simpl;
    try destruct (IsQualifiedName (RevisionName tt));
    try destruct (IsQualifiedName (ConfigurationName tt));
    simpl; rewrite ?app_nil_r; reflexivity.
Qed.

Lemma selectorRule_kinds (tt : TrafficTarget) :
  selectorFindings (selectorRule tt) = selectorRule tt
  /\ apis.ofKind apis.OutOfBoundsValue (selectorRule tt) = []
  /\ apis.ofKind apis.DisallowedFields (selectorRule tt) = [].
Proof.
  unfold selectorRule.
  destruct (isEmptyString (RevisionName tt)), (isEmptyString (ConfigurationName tt));
    try destruct (IsQualifiedName (RevisionName tt));
    try destruct (IsQualifiedName (ConfigurationName tt)); repeat split; reflexivity.
Qed.

Lemma boundsRule_kinds (tt : TrafficTarget) :
  selectorFindings (boundsRule tt) = []
  /\ apis.ofKind apis.OutOfBoundsValue (boundsRule tt) = boundsRule tt
  /\ apis.ofKind apis.DisallowedFields (boundsRule tt) = [].
Proof.
  unfold boundsRule.
  destruct ((Percent tt <? 0)%Z || (Percent tt >? 100)%Z); repeat split; reflexivity.
Qed.

Lemma urlRule_kinds (tt : TrafficTarget) :
  selectorFindings (urlRule tt) = []
  /\ apis.ofKind apis.OutOfBoundsValue (urlRule tt) = []
  /\ apis.ofKind apis.DisallowedFields (urlRule tt) = urlRule tt.
Proof.
  unfold urlRule. destruct (isEmptyString (URL tt)); repeat split; reflexivity.
Qed.

Lemma selectorFindings_targetValidate (ctx : context) (tt : TrafficTarget) :
  selectorFindings (TrafficTarget_Validate ctx tt) = selectorRule tt.
Proof.
  rewrite targetValidate_rules.
  destruct (selectorRule_kinds tt) as [H1 _].
  destruct (boundsRule_kinds tt) as [H2 _].
  destruct (urlRule_kinds tt) as [H3 _].
  unfold selectorFindings in *. rewrite !List.filter_app, H1, H2, H3.
  now rewrite !app_nil_r.
Qed.

Lemma outOfBounds_targetValidate (ctx : context) (tt : TrafficTarget) :
  apis.ofKind apis.OutOfBoundsValue (TrafficTarget_Validate ctx tt) = boundsRule tt.
Proof.
  rewrite targetValidate_rules.
  destruct (selectorRule_kinds tt) as (_ & H1 & _).
  destruct (boundsRule_kinds tt) as (_ & H2 & _).
  destruct (urlRule_kinds tt) as (_ & H3 & _).
  unfold apis.ofKind in *. rewrite !List.filter_app, H1, H2, H3.
  now rewrite app_nil_r.
Qed.

Lemma disallowed_targetValidate (ctx : context) (tt : TrafficTarget) :
  apis.ofKind apis.DisallowedFields (TrafficTarget_Validate ctx tt) = urlRule tt.
Proof.
  rewrite targetValidate_rules.
  destruct (selectorRule_kinds tt) as (_ & _ & H1).
  destruct (boundsRule_kinds tt) as (_ & _ & H2).
  destruct (urlRule_kinds tt) as (_ & _ & H3).
  unfold apis.ofKind in *. now rewrite !List.filter_app, H1, H2, H3.
Qed.

(** C3. The destination-selector rule is a four-way exclusive choice: both
    references set give one MultipleOneOf finding on both field paths;
    neither set gives one MissingOneOf finding on both field paths; exactly
    one set gives an InvalidKeyName finding on that field, with the
    checker's violations attached, exactly when the checker returns
    violations for its value; a Target never gets more than one of them. *)
Theorem destination_selector_choice (ctx : context) (tt : TrafficTarget) :
  let sel := selectorFindings (TrafficTarget_Validate ctx tt) in
  (RevisionName tt <> EmptyString /\ ConfigurationName tt <> EmptyString ->
     sel = [apis.mkFinding apis.MsgMultipleOneOf
              ["revisionName"; "configurationName"] []])
  /\ (RevisionName tt = EmptyString /\ ConfigurationName tt = EmptyString ->
     sel = [apis.mkFinding apis.MsgMissingOneOf
              ["revisionName"; "configurationName"] []])
  /\ (RevisionName tt <> EmptyString /\ ConfigurationName tt = EmptyString ->
     (IsQualifiedName (RevisionName tt) <> [] ->
        sel = [apis.mkFinding (apis.MsgInvalidKeyName (RevisionName tt))
                 ["revisionName"] (IsQualifiedName (RevisionName tt))])
     /\ (IsQualifiedName (RevisionName tt) = [] -> sel = []))
  /\ (RevisionName tt = EmptyString /\ ConfigurationName tt <> EmptyString ->
     (IsQualifiedName (ConfigurationName tt) <> [] ->
        sel = [apis.mkFinding (apis.MsgInvalidKeyName (ConfigurationName tt))
                 ["configurationName"] (IsQualifiedName (ConfigurationName tt))])
     /\ (IsQualifiedName (ConfigurationName tt) = [] -> sel = []))
  /\ (length sel <= 1)%nat.
Proof. unused.
  intros sel. subst sel. rewrite selectorFindings_targetValidate.
  unfold selectorRule.
  destruct (RevisionName tt) as [|a r], (ConfigurationName tt) as [|b c]; simpl.
  - repeat split; try tauto; lia.
  - destruct (IsQualifiedName (String b c)) eqn:E; simpl;
      repeat split; intros; try tauto; try congruence; try lia;
      destruct H; congruence.
  - destruct (IsQualifiedName (String a r)) eqn:E; simpl;
      repeat split; intros; try tauto; try congruence; try lia;
      destruct H; congruence.
  - repeat split; intros; try tauto; try lia; destruct H; congruence.
Qed.

(** C5. A Target with exactly one reference set, that reference accepted by
    the qualified-name checker, a weight within 0..100 and an empty URL has
    no error. *)
Theorem valid_target_no_error (ctx : context) (tt : TrafficTarget) :
  (RevisionName tt <> EmptyString /\ ConfigurationName tt = EmptyString
     /\ IsQualifiedName (RevisionName tt) = []
   \/ RevisionName tt = EmptyString /\ ConfigurationName tt <> EmptyString
     /\ IsQualifiedName (ConfigurationName tt) = []) ->
  (0 <= Percent tt <= 100)%Z ->
  URL tt = EmptyString ->
  TrafficTarget_Validate ctx tt = apis.absent.
Proof.
  intros Hsel Hp Hu. rewrite targetValidate_rules.
  unfold selectorRule, boundsRule, urlRule. rewrite Hu. simpl.
  replace ((Percent tt <? 0)%Z || (Percent tt >? 100)%Z) with false
    by (symmetry; apply outside_bounds_false; lia).
  destruct Hsel as [(Hr & Hc & Hq) | (Hr & Hc & Hq)].
  - rewrite Hc. apply isEmptyString_false in Hr. rewrite Hr, Hq. reflexivity.
  - rewrite Hr. apply isEmptyString_false in Hc. rewrite Hc, Hq. reflexivity.
Qed.

(** C6. The three rules of the Target Validator are evaluated one after the
    other and their findings merged: the result is the findings of the
    selector rule, then of the weight bounds, then of the URL rule, each
    present exactly when its own rule is violated; a Target that has both
    references set, a weight out of bounds and a URL gets all three. *)
Theorem target_rules_merged (ctx : context) (tt : TrafficTarget) :
  let result := TrafficTarget_Validate ctx tt in
  result = selectorFindings result ++ apis.ofKind apis.OutOfBoundsValue result
             ++ apis.ofKind apis.DisallowedFields result
  /\ (selectorFindings result <> [] <->
        (RevisionName tt <> EmptyString /\ ConfigurationName tt <> EmptyString)
        \/ (RevisionName tt = EmptyString /\ ConfigurationName tt = EmptyString)
        \/ (RevisionName tt <> EmptyString /\ ConfigurationName tt = EmptyString
             /\ IsQualifiedName (RevisionName tt) <> [])
        \/ (RevisionName tt = EmptyString /\ ConfigurationName tt <> EmptyString
             /\ IsQualifiedName (ConfigurationName tt) <> []))
  /\ (apis.ofKind apis.OutOfBoundsValue result <> [] <->
        (Percent tt < 0 \/ Percent tt > 100)%Z)
  /\ (apis.ofKind apis.DisallowedFields result <> [] <-> URL tt <> EmptyString)
  /\ (RevisionName tt <> EmptyString /\ ConfigurationName tt <> EmptyString
       /\ (Percent tt < 0 \/ Percent tt > 100)%Z /\ URL tt <> EmptyString ->
      result =
        [apis.mkFinding apis.MsgMultipleOneOf ["revisionName"; "configurationName"] [];
         apis.mkFinding (apis.MsgOutOfBoundsValue (Percent tt) 0 100) ["percent"] [];
         apis.mkFinding apis.MsgDisallowedFields ["url"] []]).
Proof. unused.
  intros result. subst result.
  rewrite selectorFindings_targetValidate, outOfBounds_targetValidate,
    disallowed_targetValidate.
  split; [apply targetValidate_rules|].
  split.
  { unfold selectorRule, apis.absent, apis.ErrInvalidKeyName,
      apis.ErrMultipleOneOf, apis.ErrMissingOneOf.
    destruct (RevisionName tt) as [|a r], (ConfigurationName tt) as [|b c]; simpl.
    - intuition congruence.
    - destruct (IsQualifiedName (String b c)); simpl; intuition congruence.
    - destruct (IsQualifiedName (String a r)); simpl; intuition congruence.
    - intuition congruence. }
  split.
  { unfold boundsRule, apis.absent.
    destruct ((Percent tt <? 0)%Z || (Percent tt >? 100)%Z) eqn:E.
    - apply outside_bounds_true in E. split; [intros _; lia | discriminate].
    - apply outside_bounds_false in E. split; [congruence | lia]. }
  split.
  { unfold urlRule, apis.absent, apis.ErrDisallowedFields.
    destruct (URL tt); simpl; intuition congruence. }
  intros (Hr & Hc & Hp & Hu).
  rewrite targetValidate_rules. unfold selectorRule, boundsRule, urlRule.
  apply isEmptyString_false in Hr, Hc, Hu. rewrite Hr, Hc, Hu.
  replace ((Percent tt <? 0)%Z || (Percent tt >? 100)%Z) with true
    by (symmetry; apply outside_bounds_true; lia).
  reflexivity.
Qed.

(** C7. A weight outside 0..100 adds one OutOfBoundsValue finding on the
    path "percent", carrying the weight and the bounds 0 and 100; a weight
    inside 0..100 adds none. *)
Theorem weight_bounds (ctx : context) (tt : TrafficTarget) :
  ((Percent tt < 0 \/ Percent tt > 100)%Z ->
     apis.ofKind apis.OutOfBoundsValue (TrafficTarget_Validate ctx tt) =
       [apis.mkFinding (apis.MsgOutOfBoundsValue (Percent tt) 0 100) ["percent"] []])
  /\ ((0 <= Percent tt <= 100)%Z ->
     apis.ofKind apis.OutOfBoundsValue (TrafficTarget_Validate ctx tt) = []).
Proof.
  rewrite outOfBounds_targetValidate. unfold boundsRule.
  destruct ((Percent tt <? 0)%Z || (Percent tt >? 100)%Z) eqn:E.
  - apply outside_bounds_true in E. split; [reflexivity | lia].
  - apply outside_bounds_false in E. split; [lia | reflexivity].
Qed.

(** C8. The Target Validator adds a DisallowedFields finding on the path
    "url" if and only if the URL of the Target is not empty. *)
Theorem url_disallowed (ctx : context) (tt : TrafficTarget) :
  (In (apis.mkFinding apis.MsgDisallowedFields ["url"] []) (TrafficTarget_Validate ctx tt)
     <-> URL tt <> EmptyString)
  /\ (URL tt <> EmptyString ->
       apis.ofKind apis.DisallowedFields (TrafficTarget_Validate ctx tt) =
         [apis.mkFinding apis.MsgDisallowedFields ["url"] []])
  /\ (URL tt = EmptyString ->
       apis.ofKind apis.DisallowedFields (TrafficTarget_Validate ctx tt) = []).
Proof. unused.
  assert (Hk : forall e, In e (TrafficTarget_Validate ctx tt) ->
               apis.hasKind apis.DisallowedFields e = true ->
               In e (apis.ofKind apis.DisallowedFields (TrafficTarget_Validate ctx tt))).
  { intros e He Hk. apply List.filter_In. split; assumption. }
  pose proof (disallowed_targetValidate ctx tt) as Hd. unfold urlRule in Hd.
  split; [split|split].
  - intros Hin. apply Hk in Hin; [|reflexivity]. rewrite Hd in Hin.
    destruct (URL tt); simpl in *; [tauto | congruence].
  - intros Hu. apply isEmptyString_false in Hu. rewrite Hu in Hd.
    assert (Hin : In (apis.mkFinding apis.MsgDisallowedFields ["url"] [])
                    (apis.ofKind apis.DisallowedFields (TrafficTarget_Validate ctx tt))).
    { rewrite Hd. left. reflexivity. }
    apply List.filter_In in Hin. tauto.
  - intros Hu. apply isEmptyString_false in Hu. now rewrite Hu in Hd.
  - intros Hu. rewrite Hu in Hd. exact Hd.
Qed.

(** ** The loop of the Spec Validator *)

Lemma prefix_append (s t : string) : String.prefix s (s +:+ t) = true.
Proof.
  induction s as [|a s IH].
  - destruct t; reflexivity.
  - change (String a s +:+ t) with (String a (s +:+ t)). simpl.
    destruct (ascii_dec a a); [exact IH | congruence].
Qed.

Lemma append_assoc (s t u : string) : (s +:+ t) +:+ u = s +:+ t +:+ u.
Proof.
  induction s as [|a s IH]; [reflexivity|].
  change (String a (s +:+ t) +:+ u = String a (s +:+ t +:+ u)).
  change (String a ((s +:+ t) +:+ u) = String a (s +:+ t +:+ u)).
  now rewrite IH.
Qed.

Lemma length_append (s t : string) :
  String.length (s +:+ t) = (String.length s + String.length t)%nat.
Proof.
  induction s as [|a s IH]; [reflexivity|].
  change (S (String.length (s +:+ t)) = S (String.length s + String.length t)).
  now rewrite IH.
Qed.

Lemma append_inv_tail (t : string) :
  forall s1 s2 : string, s1 +:+ t = s2 +:+ t -> s1 = s2.
Proof.
  induction s1 as [|a s1 IH]; intros [|b s2] H.
  - reflexivity.
  - apply (f_equal String.length) in H.
    change (String b s2 +:+ t) with (String b (s2 +:+ t)) in H.
    change (EmptyString +:+ t) with t in H.
    simpl in H. rewrite length_append in H. lia.
  - apply (f_equal String.length) in H.
    change (String a s1 +:+ t) with (String a (s1 +:+ t)) in H.
    change (EmptyString +:+ t) with t in H.
    simpl in H. rewrite length_append in H. lia.
  - change (String a (s1 +:+ t) = String b (s2 +:+ t)) in H.
    injection H as -> H. f_equal. now apply IH.
Qed.

Lemma fmt_d_inj (a b : Z) : fmt.d a = fmt.d b -> a = b.
Proof.
  unfold fmt.d. intros H. apply DecimalZ.to_int_inj.
  pose proof (NilEmpty.isi (Z.to_int a)) as Ha.
  rewrite H, NilEmpty.isi in Ha. congruence.
Qed.

(** Prefixing rewrites paths only: a test on the message commutes with it. *)
Lemma filter_ViaField (P : apis.Finding -> bool) (prefix : string) (fe : FieldError) :
  (forall e paths, P (apis.mkFinding (apis.Message e) paths (apis.Details e)) = P e) ->
  List.filter P (apis.ViaField prefix fe) = apis.ViaField prefix (List.filter P fe).
Proof.
  intros HP. unfold apis.ViaField.
  induction fe as [|e fe IH]; simpl; [reflexivity|].
  rewrite HP. destruct (P e); simpl; now rewrite IH.
Qed.

Lemma filter_ViaFieldIndex (P : apis.Finding -> bool) (field : string) (i : nat)
    (fe : FieldError) :
  (forall e paths, P (apis.mkFinding (apis.Message e) paths (apis.Details e)) = P e) ->
  List.filter P (apis.ViaFieldIndex field i fe) =
  apis.ViaFieldIndex field i (List.filter P fe).
Proof.
  intros HP. unfold apis.ViaFieldIndex, apis.ViaIndex.
  now rewrite !filter_ViaField.
Qed.

Lemma ofKind_app (k : apis.Kind) (a b : FieldError) :
  apis.ofKind k (a ++ b) = apis.ofKind k a ++ apis.ofKind k b.
Proof. apply List.filter_app. Qed.

Lemma ofKind_ViaFieldIndex (k : apis.Kind) (field : string) (i : nat) (fe : FieldError) :
  apis.ofKind k (apis.ViaFieldIndex field i fe) =
  apis.ViaFieldIndex field i (apis.ofKind k fe).
Proof. apply filter_ViaFieldIndex. reflexivity. Qed.

Lemma targetValidate_no_text (ctx : context) (tt : TrafficTarget) :
  List.filter isText (TrafficTarget_Validate ctx tt) = [].
Proof.
  rewrite targetValidate_rules, !List.filter_app.
  unfold selectorRule, boundsRule, urlRule.
  destruct (isEmptyString (RevisionName tt)), (isEmptyString (ConfigurationName tt)),
    ((Percent tt <? 0)%Z || (Percent tt >? 100)%Z), (isEmptyString (URL tt));
    try destruct (IsQualifiedName (RevisionName tt));
    try destruct (IsQualifiedName (ConfigurationName tt)); reflexivity.
Qed.

Lemma filter_text_only (P : apis.Finding -> bool) (fe : FieldError) :
  (forall e, isText e = false -> P e = false) ->
  List.filter isText fe = [] -> List.filter P fe = [].
Proof.
  intros HP. induction fe as [|e fe IH]; simpl; [reflexivity|].
  destruct (isText e) eqn:Et; [discriminate|].
  intros H. rewrite (HP e Et). auto.
Qed.

(** A test that only text messages pass finds nothing in what the Target
    Validator returns, with or without a path prefix. *)
Lemma target_findings_filtered (P : apis.Finding -> bool) (ctx : context) (i : nat)
    (tt : TrafficTarget) :
  (forall e, isText e = false -> P e = false) ->
  List.filter P (apis.ViaFieldIndex "traffic" i (TrafficTarget_Validate ctx tt)) = [].
Proof.
  intros HP. apply filter_text_only; [exact HP|].
  rewrite filter_ViaFieldIndex by reflexivity.
  now rewrite targetValidate_no_text.
Qed.

Lemma text_kind_duplicate (e : apis.Finding) :
  isText e = false -> apis.hasKind apis.DuplicateDefinition e = false.
Proof. destruct e as [[] ? ?]; simpl; intros; reflexivity || discriminate. Qed.

Lemma text_kind_sum (e : apis.Finding) :
  isText e = false -> apis.hasKind apis.SumMismatch e = false.
Proof. destruct e as [[] ? ?]; simpl; intros; reflexivity || discriminate. Qed.

Lemma text_namesDuplicate (n : string) (e : apis.Finding) :
  isText e = false -> namesDuplicate n e = false.
Proof. destruct e as [[] ? ?]; simpl; intros; reflexivity || discriminate. Qed.

Lemma multipleDefinitions_kind (n : string) (ent i : nat) :
  apis.hasKind apis.DuplicateDefinition (multipleDefinitions n ent i) = true
  /\ apis.hasKind apis.SumMismatch (multipleDefinitions n ent i) = false
  /\ apis.hasKind apis.OutOfBoundsValue (multipleDefinitions n ent i) = false.
Proof.
  unfold apis.hasKind, apis.kindOf, multipleDefinitions; simpl.
  rewrite prefix_append. repeat split; reflexivity.
Qed.

Lemma sumMismatch_kind (total : Z) :
  apis.hasKind apis.SumMismatch (sumMismatch total) = true
  /\ apis.hasKind apis.DuplicateDefinition (sumMismatch total) = false
  /\ apis.hasKind apis.OutOfBoundsValue (sumMismatch total) = false.
Proof.
  unfold apis.hasKind, apis.kindOf, sumMismatch; simpl.
  rewrite prefix_append.
  change (String.prefix "Multiple definitions for "
            ("Traffic targets sum to " +:+ fmt.d total +:+ ", want 100")) with false.
  repeat split; reflexivity.
Qed.

Lemma loopBody_fields (ctx : context) (st : loopState) (i : nat) (tt : TrafficTarget) :
  errs (loopBody ctx st i tt) =
    errs st ++ apis.ViaFieldIndex "traffic" i (TrafficTarget_Validate ctx tt)
      ++ duplicateOf (trafficMap st) i tt
  /\ percentSum (loopBody ctx st i tt) = goint.add (percentSum st) (Percent tt)
  /\ trafficMap (loopBody ctx st i tt) = recordName (trafficMap st) i tt.
Proof.
  unfold loopBody, duplicateOf, recordName, apis.Also.
  destruct (isEmptyString (Name tt)); simpl.
  - rewrite app_nil_r. auto.
  - destruct (trafficMap st !! Name tt); simpl.
    + rewrite <- app_assoc. auto.
    + rewrite app_nil_r. auto.
Qed.

Lemma rangeTraffic_percentSum (ctx : context) (traffic : list TrafficTarget) :
  forall (st : loopState) (i : nat),
    percentSum (rangeTraffic ctx st i traffic) =
    fold_left (fun acc t => goint.add acc (Percent t)) traffic (percentSum st).
Proof.
  induction traffic as [|t rest IH]; intros st i; simpl; [reflexivity|].
  rewrite IH. destruct (loopBody_fields ctx st i t) as (_ & -> & _). reflexivity.
Qed.

(** The loop adds no finding of kind SumMismatch. *)
Lemma rangeTraffic_sum_kind (ctx : context) (traffic : list TrafficTarget) :
  forall (st : loopState) (i : nat),
    apis.ofKind apis.SumMismatch (errs (rangeTraffic ctx st i traffic)) =
    apis.ofKind apis.SumMismatch (errs st).
Proof.
  induction traffic as [|t rest IH]; intros st i; simpl; [reflexivity|].
  rewrite IH. destruct (loopBody_fields ctx st i t) as (-> & _ & _).
  rewrite !ofKind_app. unfold apis.ofKind at 2.
  rewrite target_findings_filtered by apply text_kind_sum.
  unfold duplicateOf.
  destruct (isEmptyString (Name t)); [now rewrite app_nil_r|].
  destruct (trafficMap st !! Name t); [|now rewrite app_nil_r].
  unfold apis.ofKind at 2. simpl.
  destruct (multipleDefinitions_kind (Name t) n i) as (_ & -> & _).
  now rewrite app_nil_r.
Qed.

(** ** The Spec Validator *)

Lemma finalState_percentSum (ctx : context) (rs : RouteSpec) :
  percentSum (finalState ctx rs) = runningTotal (Traffic rs).
Proof. unfold finalState. now rewrite rangeTraffic_percentSum. Qed.

Lemma specValidate_nonzero (ctx : context) (rs : RouteSpec) :
  isZeroRouteSpec rs = false ->
  RouteSpec_Validate ctx rs =
    errs (finalState ctx rs) ++
    (if (runningTotal (Traffic rs) =? 100)%Z then []
     else [sumMismatch (runningTotal (Traffic rs))]).
Proof.
  intros Hz. unfold RouteSpec_Validate. rewrite Hz.
  fold (finalState ctx rs). cbv zeta. rewrite finalState_percentSum.
  unfold apis.Also.
  destruct (runningTotal (Traffic rs) =? 100)%Z; simpl; now rewrite ?app_nil_r.
Qed.

Lemma isZeroRouteSpec_traffic (rs : RouteSpec) :
  Traffic rs <> [] -> isZeroRouteSpec rs = false.
Proof.
  unfold isZeroRouteSpec. destruct (Traffic rs); [congruence|].
  intros _. apply andb_false_r.
Qed.

Lemma sumMismatch_specValidate (ctx : context) (rs : RouteSpec) :
  isZeroRouteSpec rs = false ->
  apis.ofKind apis.SumMismatch (RouteSpec_Validate ctx rs) =
    apis.ofKind apis.SumMismatch
      (CheckDeprecated ctx [("generation", DeprecatedGeneration rs)])
    ++ (if (runningTotal (Traffic rs) =? 100)%Z then []
        else [sumMismatch (runningTotal (Traffic rs))]).
Proof.
  intros Hz. rewrite (specValidate_nonzero ctx rs Hz), ofKind_app.
  unfold finalState. rewrite rangeTraffic_sum_kind. simpl. f_equal.
  destruct (runningTotal (Traffic rs) =? 100)%Z; [reflexivity|].
  unfold apis.ofKind. simpl.
  now destruct (sumMismatch_kind (runningTotal (Traffic rs))) as (-> & _).
Qed.

Lemma wrap_inRange (z : Z) : goint.inRange z -> goint.wrap z = z.
Proof.
  unfold goint.inRange, goint.wrap, goint.minInt, goint.maxInt, goint.intSize.
  intros H. rewrite Z.mod_small; lia.
Qed.

Lemma fold_add_noOverflow (traffic : list TrafficTarget) :
  forall acc : Z,
    (forall k : nat, goint.inRange (acc + sumOfWeights (firstn k traffic))) ->
    fold_left (fun a t => goint.add a (Percent t)) traffic acc =
    (acc + sumOfWeights traffic)%Z.
Proof.
  induction traffic as [|t rest IH]; intros acc H; simpl.
  - lia.
  - assert (Hw : goint.add acc (Percent t) = (acc + Percent t)%Z).
    { unfold goint.add. apply wrap_inRange.
      specialize (H 1%nat). simpl in H. now rewrite Z.add_0_r in H. }
    rewrite Hw, IH; [lia|].
    intros k. specialize (H (S k)). simpl in H.
    now rewrite Z.add_assoc in H.
Qed.

Lemma runningTotal_noOverflow (traffic : list TrafficTarget) :
  noOverflow traffic -> runningTotal traffic = sumOfWeights traffic.
Proof.
  intros H. unfold runningTotal. rewrite fold_add_noOverflow; [lia|].
  intros k. apply H.
Qed.

(** The path of a field of the target at index [i]. *)
Lemma joinPath_traffic_index (i : nat) (field : string) :
  field <> EmptyString -> apis.startsWithBracket field = false ->
  apis.joinPath "traffic" (apis.joinPath (apis.asIndex i) field) =
  "traffic[" +:+ fmt.d (Z.of_nat i) +:+ "]." +:+ field.
Proof.
  intros Hne Hb. destruct field as [|c field]; [congruence|].
  unfold apis.joinPath at 2. rewrite Hb. unfold apis.asIndex.
  change ("[" +:+ fmt.d (Z.of_nat i) +:+ "]")
    with (String "[" (fmt.d (Z.of_nat i) +:+ "]")).
  change (String "[" (fmt.d (Z.of_nat i) +:+ "]") +:+ "." +:+ String c field)
    with (String "[" ((fmt.d (Z.of_nat i) +:+ "]") +:+ "." +:+ String c field)).
  rewrite append_assoc. reflexivity.
Qed.

Lemma rangeTraffic_errs_keeps (ctx : context) (traffic : list TrafficTarget) :
  forall (st : loopState) (i : nat) (e : apis.Finding),
    In e (errs st) -> In e (errs (rangeTraffic ctx st i traffic)).
Proof.
  induction traffic as [|t rest IH]; intros st i e He; simpl; [exact He|].
  apply IH. destruct (loopBody_fields ctx st i t) as (-> & _ & _).
  apply in_or_app. now left.
Qed.

Lemma rangeTraffic_errs_target (ctx : context) (traffic : list TrafficTarget) :
  forall (st : loopState) (i k : nat) (t : TrafficTarget) (e : apis.Finding),
    traffic !! k = Some t ->
    In e (apis.ViaFieldIndex "traffic" (i + k) (TrafficTarget_Validate ctx t)) ->
    In e (errs (rangeTraffic ctx st i traffic)).
Proof.
  induction traffic as [|t0 rest IH]; intros st i k t e Hk He; [discriminate|].
  destruct k as [|k]; simpl in *.
  - injection Hk as ->. apply rangeTraffic_errs_keeps.
    destruct (loopBody_fields ctx st i t) as (-> & _ & _).
    rewrite Nat.add_0_r in He. apply in_or_app. right. apply in_or_app. now left.
  - apply (IH _ (S i) k t e Hk).
    now replace (S i + k)%nat with (i + S k)%nat by lia.
Qed.

(** Every target with a weight out of bounds is reported at its index. *)
Lemma outOfBounds_reported (ctx : context) (rs : RouteSpec) (k : nat) (t : TrafficTarget) :
  Traffic rs !! k = Some t ->
  (Percent t < 0 \/ Percent t > 100)%Z ->
  In (apis.mkFinding (apis.MsgOutOfBoundsValue (Percent t) 0 100)
        ["traffic[" +:+ fmt.d (Z.of_nat k) +:+ "].percent"] [])
     (RouteSpec_Validate ctx rs).
Proof.
  intros Hk Hp.
  assert (Hz : isZeroRouteSpec rs = false).
  { apply isZeroRouteSpec_traffic. intros E. rewrite E in Hk. discriminate. }
  rewrite (specValidate_nonzero ctx rs Hz). apply in_or_app. left.
  unfold finalState. apply (rangeTraffic_errs_target ctx _ _ 0 k t _ Hk).
  rewrite targetValidate_rules. unfold apis.ViaFieldIndex, apis.ViaIndex, apis.ViaField.
  rewrite !map_app, !in_app_iff. right. left.
  unfold boundsRule. apply outside_bounds_true in Hp. rewrite Hp. simpl. left.
  f_equal. f_equal.
  apply (joinPath_traffic_index k "percent"); [discriminate | reflexivity].
Qed.

(** C1, as amended. For a Spec with at least one target (the
    deprecated-field check reporting no sum mismatch of its own), the
    result has no SumMismatch finding if and only if the running total, the
    weights added with Go's wrapping [+], is exactly 100; otherwise it has
    exactly one, the last finding of the result, on the path "traffic",
    whose message states the running total and the wanted 100. The running
    total is the sum of the weights whenever no partial sum overflows. *)
Theorem sum_mismatch_iff_running_total (ctx : context) (rs : RouteSpec) :
  Traffic rs <> [] ->
  apis.ofKind apis.SumMismatch
    (CheckDeprecated ctx [("generation", DeprecatedGeneration rs)]) = [] ->
  let total := runningTotal (Traffic rs) in
  let mismatch :=
    apis.mkFinding
      (apis.MsgText ("Traffic targets sum to " +:+ fmt.d total +:+ ", want 100"))
      ["traffic"] [] in
  (apis.ofKind apis.SumMismatch (RouteSpec_Validate ctx rs) = [] <-> total = 100%Z)
  /\ (total <> 100%Z ->
      apis.ofKind apis.SumMismatch (RouteSpec_Validate ctx rs) = [mismatch]
      /\ exists pre, RouteSpec_Validate ctx rs = pre ++ [mismatch])
  /\ (noOverflow (Traffic rs) -> total = sumOfWeights (Traffic rs)).
Proof. unused.
  intros Hne Hcd total mismatch.
  pose proof (isZeroRouteSpec_traffic rs Hne) as Hz.
  rewrite (sumMismatch_specValidate ctx rs Hz), Hcd. simpl.
  fold total. change (sumMismatch total) with mismatch.
  split; [|split].
  - destruct (total =? 100)%Z eqn:E.
    + apply Z.eqb_eq in E. tauto.
    + apply Z.eqb_neq in E. split; [discriminate | tauto].
  - intros Ht. apply Z.eqb_neq in Ht. rewrite Ht. split; [reflexivity|].
    exists (errs (finalState ctx rs)).
    rewrite (specValidate_nonzero ctx rs Hz). fold total. now rewrite Ht.
  - apply runningTotal_noOverflow.
Qed.

(** C4. A Spec equal to the zero-valued Spec gets exactly one MissingField
    finding at the current path, whatever the deprecated-field check, the
    targets and the weights would have given; through the Resource
    Validator that finding is at the path "spec". *)
Theorem empty_spec_missing_field (ctx : context) (rs : RouteSpec) :
  DeprecatedGeneration rs = 0%Z -> Traffic rs = [] ->
  RouteSpec_Validate ctx rs = [apis.mkFinding apis.MsgMissingField [apis.CurrentField] []]
  /\ forall r : Route,
      Spec r = rs ->
      Route_Validate ctx r =
        apis.ViaField "metadata" (ValidateObjectMetadata (GetObjectMeta r))
        ++ [apis.mkFinding apis.MsgMissingField ["spec"] []].
Proof.
  intros Hg Ht.
  assert (Hs : forall c, RouteSpec_Validate c rs =
                 [apis.mkFinding apis.MsgMissingField [apis.CurrentField] []]).
  { intros c. unfold RouteSpec_Validate, isZeroRouteSpec. now rewrite Hg, Ht. }
  split; [apply Hs|].
  intros r Hr. unfold Route_Validate, apis.Also. rewrite Hr, Hs. reflexivity.
Qed.

(** C9. A Spec that is not the zero-valued Spec and has no target skips
    the MissingField sentinel and gets, after the findings of the
    deprecated-field check, a sum mismatch on the path "traffic" stating the
    total 0 against the wanted 100. *)
Theorem zero_targets_sum_mismatch (ctx : context) (rs : RouteSpec) :
  isZeroRouteSpec rs = false -> Traffic rs = [] ->
  RouteSpec_Validate ctx rs =
    CheckDeprecated ctx [("generation", DeprecatedGeneration rs)]
    ++ [apis.mkFinding (apis.MsgText "Traffic targets sum to 0, want 100")
          ["traffic"] []].
Proof.
  intros Hz Ht. rewrite (specValidate_nonzero ctx rs Hz).
  unfold finalState. rewrite Ht. reflexivity.
Qed.

(** C10. Weights out of bounds count toward the running total exactly as
    given. For every Spec with at least one target, each target whose
    weight is outside 0..100 gets its OutOfBoundsValue finding at
    traffic[k].percent, and the total is that of the weights as they stand,
    whatever their range (their sum when no partial sum overflows): the
    SumMismatch findings are those of the deprecated-field check, and one
    more, stating that total, exactly when it is not 100. So the Spec with
    the weights 150 and -50 gets an OutOfBoundsValue finding for each of its
    two targets and (the deprecated-field check reporting none of its own)
    no sum mismatch. *)
Theorem out_of_bounds_weights_counted (ctx : context) :
  (forall rs : RouteSpec,
     Traffic rs <> [] ->
     let total := runningTotal (Traffic rs) in
     let deprecated :=
       CheckDeprecated ctx [("generation", DeprecatedGeneration rs)] in
     (forall (k : nat) (t : TrafficTarget),
        Traffic rs !! k = Some t -> (Percent t < 0 \/ Percent t > 100)%Z ->
        In (apis.mkFinding (apis.MsgOutOfBoundsValue (Percent t) 0 100)
              ["traffic[" +:+ fmt.d (Z.of_nat k) +:+ "].percent"] [])
           (RouteSpec_Validate ctx rs))
     /\ (total = 100%Z ->
         apis.ofKind apis.SumMismatch (RouteSpec_Validate ctx rs) =
         apis.ofKind apis.SumMismatch deprecated)
     /\ (total <> 100%Z ->
         apis.ofKind apis.SumMismatch (RouteSpec_Validate ctx rs) =
         apis.ofKind apis.SumMismatch deprecated
         ++ [apis.mkFinding
               (apis.MsgText ("Traffic targets sum to " +:+ fmt.d total +:+ ", want 100"))
               ["traffic"] []])
     /\ (noOverflow (Traffic rs) -> total = sumOfWeights (Traffic rs)))
  /\ (let rs := outOfBoundsSpec in
      Forall (fun t => (Percent t < 0 \/ Percent t > 100)%Z) (Traffic rs)
      /\ sumOfWeights (Traffic rs) = 100%Z
      /\ In (apis.mkFinding (apis.MsgOutOfBoundsValue 150 0 100) ["traffic[0].percent"] [])
           (RouteSpec_Validate ctx rs)
      /\ In (apis.mkFinding (apis.MsgOutOfBoundsValue (-50) 0 100) ["traffic[1].percent"] [])
           (RouteSpec_Validate ctx rs)
      /\ (apis.ofKind apis.SumMismatch
            (CheckDeprecated ctx [("generation", DeprecatedGeneration rs)]) = [] ->
          apis.ofKind apis.SumMismatch (RouteSpec_Validate ctx rs) = [])).
Proof.
  split.
  - intros rs Hne total deprecated.
    pose proof (isZeroRouteSpec_traffic rs Hne) as Hz.
    split; [|split; [|split]].
    + intros k t Hk Hp. exact (outOfBounds_reported ctx rs k t Hk Hp).
    + intros Ht. rewrite (sumMismatch_specValidate ctx rs Hz). fold total.
      apply Z.eqb_eq in Ht. rewrite Ht. apply app_nil_r.
    + intros Ht. rewrite (sumMismatch_specValidate ctx rs Hz). fold total.
      apply Z.eqb_neq in Ht. rewrite Ht. reflexivity.
    + apply runningTotal_noOverflow.
  - intros rs. split; [|split; [|split; [|split]]].
    + repeat constructor; simpl; lia.
    + reflexivity.
    + apply (outOfBounds_reported ctx rs 0
               (mkTrafficTarget EmptyString "blue" EmptyString 150 EmptyString));
        [reflexivity | simpl; lia].
    + apply (outOfBounds_reported ctx rs 1
               (mkTrafficTarget EmptyString "green" EmptyString (-50) EmptyString));
        [reflexivity | simpl; lia].
    + intros Hcd. rewrite sumMismatch_specValidate by reflexivity.
      rewrite Hcd. reflexivity.
Qed.

(** ** Duplicate names *)

Section Duplicates.

Hypothesis Quote_inj : forall a b : string, Quote a = Quote b -> a = b.

Lemma namesDuplicate_multipleDefinitions (n m : string) (ent i : nat) :
  namesDuplicate n (multipleDefinitions m ent i) = String.eqb m n.
Proof using Quote_inj.
  unfold namesDuplicate, multipleDefinitions. simpl.
  destruct (String.eqb_spec m n) as [->|Hne].
  - apply String.eqb_refl.
  - apply String.eqb_neq. intros H.
    apply (inj (String.app _)) in H. auto.
Qed.

Lemma rangeTraffic_duplicates_of (ctx : context) (n : string)
    (traffic : list TrafficTarget) :
  n <> EmptyString ->
  forall (st : loopState) (i : nat),
    List.filter (namesDuplicate n) (errs (rangeTraffic ctx st i traffic)) =
    List.filter (namesDuplicate n) (errs st) ++
    match trafficMap st !! n with
    | Some j => map (multipleDefinitions n j) (indicesOf n i traffic)
    | None =>
        match indicesOf n i traffic with
        | [] => []
        | j :: later => map (multipleDefinitions n j) later
        end
    end.
Proof using Quote_inj.
  intros Hn. induction traffic as [|t rest IH]; intros st i.
  - simpl. destruct (trafficMap st !! n); now rewrite app_nil_r.
  - simpl rangeTraffic. rewrite IH.
    destruct (loopBody_fields ctx st i t) as (He & _ & Hm). rewrite He, Hm.
    rewrite !List.filter_app.
    rewrite target_findings_filtered by apply text_namesDuplicate.
    unfold duplicateOf, recordName. simpl indicesOf.
    destruct (isEmptyString (Name t)) eqn:En.
    + apply isEmptyString_true in En. rewrite En.
      replace (String.eqb EmptyString n) with false
        by (symmetry; apply String.eqb_neq; congruence).
      simpl. now rewrite app_nil_r.
    + destruct (String.eqb_spec (Name t) n) as [Et|Et].
      * rewrite Et. destruct (trafficMap st !! n) as [j|] eqn:El.
        -- simpl. rewrite El, namesDuplicate_multipleDefinitions, String.eqb_refl.
           rewrite <- app_assoc. reflexivity.
        -- rewrite lookup_insert_eq. simpl. now rewrite app_nil_r.
      * destruct (trafficMap st !! Name t) as [ent|] eqn:El.
        -- simpl. rewrite namesDuplicate_multipleDefinitions.
           replace (String.eqb (Name t) n) with false
             by (symmetry; now apply String.eqb_neq).
           simpl. now rewrite app_nil_r.
        -- rewrite lookup_insert_ne by exact Et. simpl. now rewrite app_nil_r.
Qed.

End Duplicates.

Lemma namesDuplicate_kind (n : string) (e : apis.Finding) :
  namesDuplicate n e = true -> apis.hasKind apis.DuplicateDefinition e = true.
Proof.
  destruct e as [[] paths details]; simpl; try discriminate.
  intros H. apply String.eqb_eq in H. subst text.
  unfold apis.hasKind, apis.kindOf. simpl. now rewrite prefix_append.
Qed.

Lemma filter_implied (P Q : apis.Finding -> bool) (fe : FieldError) :
  (forall e, Q e = true -> P e = true) ->
  List.filter Q (List.filter P fe) = List.filter Q fe.
Proof.
  intros HPQ. induction fe as [|e fe IH]; simpl; [reflexivity|].
  destruct (P e) eqn:EP; simpl.
  - now rewrite IH.
  - destruct (Q e) eqn:EQ; [|exact IH].
    apply HPQ in EQ. congruence.
Qed.

Lemma duplicates_specValidate (ctx : context) (rs : RouteSpec) :
  isZeroRouteSpec rs = false ->
  apis.ofKind apis.DuplicateDefinition (RouteSpec_Validate ctx rs) =
  apis.ofKind apis.DuplicateDefinition (errs (finalState ctx rs)).
Proof.
  intros Hz. rewrite (specValidate_nonzero ctx rs Hz), ofKind_app.
  destruct (runningTotal (Traffic rs) =? 100)%Z; simpl; [now rewrite app_nil_r|].
  unfold apis.ofKind at 2. simpl.
  destruct (sumMismatch_kind (runningTotal (Traffic rs))) as (_ & -> & _).
  now rewrite app_nil_r.
Qed.

Lemma rangeTraffic_duplicates_shape (ctx : context) (all : list TrafficTarget) :
  forall (rest pre : list TrafficTarget) (st : loopState),
    all = pre ++ rest ->
    (forall name ent, trafficMap st !! name = Some ent ->
       exists t, all !! ent = Some t /\ Name t = name /\ name <> EmptyString) ->
    (forall e, In e (apis.ofKind apis.DuplicateDefinition (errs st)) -> refersTo all e) ->
    forall e,
      In e (apis.ofKind apis.DuplicateDefinition
              (errs (rangeTraffic ctx st (length pre) rest))) ->
      refersTo all e.
Proof.
  induction rest as [|t rest IH]; intros pre st Hall Hmap Herrs e He.
  - simpl in He. auto.
  - simpl rangeTraffic in He.
    assert (Ht : all !! length pre = Some t).
    { rewrite Hall. rewrite lookup_app_r by lia.
      now replace (length pre - length pre)%nat with 0%nat by lia. }
    destruct (loopBody_fields ctx st (length pre) t) as (Hfe & _ & Hfm).
    apply (IH (pre ++ [t]) (loopBody ctx st (length pre) t)).
    + rewrite Hall, <- app_assoc. reflexivity.
    + intros name ent. rewrite Hfm. unfold recordName.
      destruct (isEmptyString (Name t)) eqn:En; [apply Hmap|].
      destruct (trafficMap st !! Name t) eqn:El; [apply Hmap|].
      destruct (String.eqb_spec (Name t) name) as [Hn|Hn].
      * rewrite Hn, lookup_insert_eq. intros [= <-].
        exists t. apply isEmptyString_false in En. repeat split; congruence.
      * rewrite lookup_insert_ne by exact Hn. apply Hmap.
    + intros e'. rewrite Hfe, !ofKind_app, !in_app_iff.
      unfold apis.ofKind at 2.
      rewrite target_findings_filtered by apply text_kind_duplicate.
      intros [H|[[]|H]]; [now apply Herrs|].
      unfold duplicateOf in H.
      destruct (isEmptyString (Name t)) eqn:En; [destruct H|].
      destruct (trafficMap st !! Name t) as [ent|] eqn:El; [|destruct H].
      apply List.filter_In in H. destruct H as [[<-|[]] _].
      destruct (Hmap _ _ El) as (tj & Hj & Hnj & Hne).
      exists (Name t), ent, (length pre), tj, t. repeat split; auto.
    + rewrite length_app. simpl.
      now replace (length pre + 1)%nat with (S (length pre)) by lia.
Qed.

Lemma path_name_inj (i j : nat) :
  "traffic[" +:+ fmt.d (Z.of_nat i) +:+ "].name" =
  "traffic[" +:+ fmt.d (Z.of_nat j) +:+ "].name" -> i = j.
Proof.
  intros H. apply (inj (String.app "traffic[")) in H.
  apply append_inv_tail, fmt_d_inj in H. lia.
Qed.

Lemma indicesOf_spec (n : string) (traffic : list TrafficTarget) :
  forall i k : nat,
    In k (indicesOf n i traffic) <->
    (i <= k)%nat /\ exists t, traffic !! (k - i)%nat = Some t /\ Name t = n.
Proof. unused.
  induction traffic as [|t rest IH]; intros i k; simpl.
  - split; [tauto | intros (_ & t & H & _); discriminate].
  - assert (Hrest : In k (indicesOf n (S i) rest) <->
              (i < k)%nat /\ exists t', rest !! (k - S i)%nat = Some t' /\ Name t' = n).
    { rewrite IH. split; intros (? & ?); split; auto; lia. }
    assert (Hstep : (i < k)%nat -> (t :: rest) !! (k - i)%nat = rest !! (k - S i)%nat).
    { intros Hlt. replace (k - i)%nat with (S (k - S i)) by lia. reflexivity. }
    destruct (String.eqb_spec (Name t) n) as [Hn|Hn]; simpl; rewrite Hrest.
    + split.
      * intros [<-|(Hlt & t' & Ht' & Hn')].
        -- split; [lia|]. exists t. now rewrite Nat.sub_diag.
        -- split; [lia|]. exists t'. now rewrite Hstep.
      * intros (Hle & t' & Ht' & Hn').
        destruct (Nat.eq_dec i k) as [->|Hik]; [now left|].
        right. split; [lia|]. exists t'. rewrite <- Hstep by lia. auto.
    + split.
      * intros (Hlt & t' & Ht' & Hn'). split; [lia|]. exists t'. now rewrite Hstep.
      * intros (Hle & t' & Ht' & Hn').
        destruct (Nat.eq_dec i k) as [->|Hik].
        -- rewrite Nat.sub_diag in Ht'. simpl in Ht'. congruence.
        -- split; [lia|]. exists t'. rewrite <- Hstep by lia. auto.
Qed.

(** C2. When the non-empty name [n] is the name of the targets at the
    indices [j :: later] (so N = 1 + length later, [j] the first), the
    DuplicateDefinition findings of the result that name [n] are exactly
    one for each later index [i], N - 1 in all, each with the message
    built for [n] and the two paths traffic[j].name and traffic[i].name;
    and no DuplicateDefinition finding has the path of a target whose name
    is empty. The deprecated-field check is taken to report no duplicate
    of its own, and [%q] to give different names different quoted forms. *)
Theorem duplicate_definitions (ctx : context) (rs : RouteSpec) (n : string)
    (j : nat) (later : list nat) :
  n <> EmptyString ->
  indicesOf n 0 (Traffic rs) = j :: later ->
  apis.ofKind apis.DuplicateDefinition
    (CheckDeprecated ctx [("generation", DeprecatedGeneration rs)]) = [] ->
  (forall a b : string, Quote a = Quote b -> a = b) ->
  let dups := apis.ofKind apis.DuplicateDefinition (RouteSpec_Validate ctx rs) in
  List.filter (namesDuplicate n) dups =
    map (fun i =>
           apis.mkFinding
             (apis.MsgText ("Multiple definitions for " +:+ Quote n))
             ["traffic[" +:+ fmt.d (Z.of_nat j) +:+ "].name";
              "traffic[" +:+ fmt.d (Z.of_nat i) +:+ "].name"] [])
        later
  /\ length (List.filter (namesDuplicate n) dups) =
       (length (indicesOf n 0 (Traffic rs)) - 1)%nat
  /\ (forall (i : nat) (t : TrafficTarget) (e : apis.Finding),
        Traffic rs !! i = Some t -> Name t = EmptyString -> In e dups ->
        ~ In ("traffic[" +:+ fmt.d (Z.of_nat i) +:+ "].name") (apis.Paths e)).
Proof.
  intros Hn Hidx Hcd Hq dups.
  assert (Hz : isZeroRouteSpec rs = false).
  { apply isZeroRouteSpec_traffic. intros E. rewrite E in Hidx. discriminate. }
  assert (Hdups : dups = apis.ofKind apis.DuplicateDefinition (errs (finalState ctx rs))).
  { apply duplicates_specValidate, Hz. }
  assert (H1 : List.filter (namesDuplicate n) dups =
               map (multipleDefinitions n j) later).
  { rewrite Hdups. unfold apis.ofKind.
    rewrite filter_implied by apply namesDuplicate_kind.
    unfold finalState. rewrite (rangeTraffic_duplicates_of Hq ctx n _ Hn).
    simpl errs. simpl trafficMap. rewrite lookup_empty, Hidx.
    rewrite <- (filter_implied (apis.hasKind apis.DuplicateDefinition))
      by apply namesDuplicate_kind.
    unfold apis.ofKind in Hcd. rewrite Hcd. reflexivity. }
  split; [exact H1|]. split.
  - rewrite H1, length_map, Hidx. simpl. lia.
  - intros i t e Hi Ht He Hin. rewrite Hdups in He.
    assert (Hr : refersTo (Traffic rs) e).
    { apply (rangeTraffic_duplicates_shape ctx (Traffic rs) (Traffic rs) []
               (mkLoopState
                  (CheckDeprecated ctx [("generation", DeprecatedGeneration rs)])
                  0 ∅)).
      - reflexivity.
      - intros name ent. simpl. rewrite lookup_empty. discriminate.
      - simpl. rewrite Hcd. intros ? [].
      - exact He. }
    destruct Hr as (name & ent & k & tj & tk & -> & Hne & Hj & Hnj & Hk & Hnk).
    simpl in Hin. destruct Hin as [H|[H|[]]]; apply path_name_inj in H; subst;
      congruence.
Qed.

Lemma zero_targets_sum_mismatch_eq (ctx : context) (rs : RouteSpec) :
  isZeroRouteSpec rs = false -> Traffic rs = [] ->
  RouteSpec_Validate ctx rs =
    CheckDeprecated ctx [("generation", DeprecatedGeneration rs)]
    ++ [sumMismatch 0].
Proof.
  intros Hz Ht. rewrite (specValidate_nonzero ctx rs Hz).
  unfold finalState. rewrite Ht. reflexivity.
Qed.

(** ** Acceptance by the Target and Resource Validators *)

Lemma prefix_refl (s : string) : String.prefix s s = true.
Proof.
  induction s as [|a s IH]; [reflexivity|]. simpl.
  destruct (ascii_dec a a); [exact IH | congruence].
Qed.

Lemma joinPath_prefix (prefix path : string) :
  String.prefix prefix (apis.joinPath prefix path) = true.
Proof.
  unfold apis.joinPath. destruct path as [|c path]; [apply prefix_refl|].
  destruct (apis.startsWithBracket (String c path)); apply prefix_append.
Qed.

Lemma ViaField_paths (prefix : string) (fe : FieldError) (e : apis.Finding)
    (path : string) :
  In e (apis.ViaField prefix fe) -> In path (apis.Paths e) ->
  String.prefix prefix path = true.
Proof.
  unfold apis.ViaField. intros He Hp.
  apply in_map_iff in He. destruct He as (e0 & <- & _). simpl in Hp.
  apply in_map_iff in Hp. destruct Hp as (p0 & <- & _). apply joinPath_prefix.
Qed.

Lemma ViaField_absent (prefix : string) (fe : FieldError) :
  apis.ViaField prefix fe = [] <-> fe = [].
Proof. unfold apis.ViaField. destruct fe; simpl; split; congruence. Qed.

Lemma routeValidate_absent_iff (ctx : context) (r : Route) :
  Route_Validate ctx r = apis.absent <->
  ValidateObjectMetadata (GetObjectMeta r) = apis.absent
  /\ RouteSpec_Validate (WithinSpec ctx) (Spec r) = apis.absent.
Proof.
  unfold Route_Validate, apis.Also, apis.absent. split.
  - intros H. apply app_eq_nil in H. destruct H as [H1 H2].
    apply ViaField_absent in H1, H2. auto.
  - intros [H1 H2]. rewrite H1, H2. reflexivity.
Qed.

(** X1. [Route.Validate] returns no error exactly when the metadata
    validator and the Spec Validator (called within the spec) both return
    none. *)
Theorem route_accepted_iff (ctx : context) (r : Route) :
  Route_Validate ctx r = apis.absent <->
  ValidateObjectMetadata (GetObjectMeta r) = apis.absent
  /\ RouteSpec_Validate (WithinSpec ctx) (Spec r) = apis.absent.
Proof. apply routeValidate_absent_iff. Qed.

(** X2. Every path of every finding [Route.Validate] returns lies under
    "metadata" or under "spec". *)
Theorem route_paths_under_metadata_or_spec (ctx : context) (r : Route)
    (e : apis.Finding) (path : string) :
  In e (Route_Validate ctx r) -> In path (apis.Paths e) ->
  String.prefix "metadata" path = true \/ String.prefix "spec" path = true.
Proof.
  unfold Route_Validate, apis.Also. intros He Hp.
  apply in_app_or in He. destruct He as [He|He].
  - left. exact (ViaField_paths _ _ _ _ He Hp).
  - right. exact (ViaField_paths _ _ _ _ He Hp).
Qed.

Lemma targetValidate_absent_iff (ctx : context) (tt : TrafficTarget) :
  TrafficTarget_Validate ctx tt = apis.absent <->
  (RevisionName tt <> EmptyString /\ ConfigurationName tt = EmptyString
     /\ IsQualifiedName (RevisionName tt) = []
   \/ RevisionName tt = EmptyString /\ ConfigurationName tt <> EmptyString
     /\ IsQualifiedName (ConfigurationName tt) = [])
  /\ (0 <= Percent tt <= 100)%Z
  /\ URL tt = EmptyString.
Proof. unused.
  rewrite targetValidate_rules. unfold apis.absent. split.
  - intros H.
    apply app_eq_nil in H. destruct H as [Hs H].
    apply app_eq_nil in H. destruct H as [Hb Hu].
    split; [|split].
    + unfold selectorRule, apis.ErrMultipleOneOf, apis.ErrMissingOneOf,
        apis.ErrInvalidKeyName, apis.absent in Hs.
      destruct (RevisionName tt) as [|a rev], (ConfigurationName tt) as [|b cfg];
        simpl in Hs; try discriminate.
      * right. destruct (IsQualifiedName (String b cfg)); [|discriminate].
        repeat split; congruence.
      * left. destruct (IsQualifiedName (String a rev)); [|discriminate].
        repeat split; congruence.
    + unfold boundsRule in Hb.
      destruct ((Percent tt <? 0)%Z || (Percent tt >? 100)%Z) eqn:E; [discriminate|].
      now apply outside_bounds_false.
    + unfold urlRule in Hu. destruct (URL tt); [reflexivity | discriminate].
  - intros (Hsel & Hp & Hu).
    unfold selectorRule, boundsRule, urlRule. rewrite Hu. simpl.
    apply outside_bounds_false in Hp. rewrite Hp.
    destruct Hsel as [(Hr & Hc & Hq) | (Hr & Hc & Hq)].
    + rewrite Hc. apply isEmptyString_false in Hr. rewrite Hr, Hq. reflexivity.
    + rewrite Hr. apply isEmptyString_false in Hc. rewrite Hc, Hq. reflexivity.
Qed.

(** X3. [TrafficTarget.Validate] returns no error exactly when one
    reference is set and the other is not, the checker accepts the one that
    is set, the weight is within 0..100 and the URL is empty. *)
Theorem target_accepted_iff (ctx : context) (tt : TrafficTarget) :
  TrafficTarget_Validate ctx tt = apis.absent <->
  (RevisionName tt <> EmptyString /\ ConfigurationName tt = EmptyString
     /\ IsQualifiedName (RevisionName tt) = []
   \/ RevisionName tt = EmptyString /\ ConfigurationName tt <> EmptyString
     /\ IsQualifiedName (ConfigurationName tt) = [])
  /\ (0 <= Percent tt <= 100)%Z
  /\ URL tt = EmptyString.
Proof. apply targetValidate_absent_iff. Qed.

Lemma specValidate_no_targets (ctx : context) (rs : RouteSpec) :
  Traffic rs = [] -> RouteSpec_Validate ctx rs <> apis.absent.
Proof.
  intros Ht. unfold apis.absent. destruct (isZeroRouteSpec rs) eqn:Hz.
  - unfold RouteSpec_Validate. rewrite Hz. discriminate.
  - rewrite (zero_targets_sum_mismatch_eq ctx rs Hz Ht).
    intros H. apply app_eq_nil in H. destruct H as [_ H]. discriminate.
Qed.

(** X6. A Spec without targets is never accepted: the result is exactly
    the MissingField finding at the current path when the deprecated field
    is zero too, and otherwise the findings of the deprecated-field check
    followed by the sum mismatch stating the total 0. *)
Theorem spec_without_targets_rejected (ctx : context) (rs : RouteSpec) :
  Traffic rs = [] ->
  RouteSpec_Validate ctx rs <> apis.absent
  /\ (DeprecatedGeneration rs = 0%Z ->
      RouteSpec_Validate ctx rs =
        [apis.mkFinding apis.MsgMissingField [apis.CurrentField] []])
  /\ (DeprecatedGeneration rs <> 0%Z ->
      RouteSpec_Validate ctx rs =
        CheckDeprecated ctx [("generation", DeprecatedGeneration rs)]
        ++ [apis.mkFinding (apis.MsgText "Traffic targets sum to 0, want 100")
              ["traffic"] []]).
Proof.
  intros Ht. split; [now apply specValidate_no_targets|]. split.
  - intros Hg. unfold RouteSpec_Validate, isZeroRouteSpec. now rewrite Hg, Ht.
  - intros Hg. apply zero_targets_sum_mismatch_eq; [|exact Ht].
    unfold isZeroRouteSpec. apply Z.eqb_neq in Hg. now rewrite Hg.
Qed.

(** ** The running total and the sum of the weights *)

Lemma wrap_range (z : Z) : goint.inRange (goint.wrap z).
Proof.
  unfold goint.inRange, goint.wrap, goint.minInt, goint.maxInt, goint.intSize.
  pose proof (Z.mod_pos_bound (z - - 2 ^ (64 - 1)) (2 ^ 64)) as H. lia.
Qed.

Lemma wrap_add_wrap (a b : Z) : goint.wrap (goint.wrap a + b) = goint.wrap (a + b).
Proof.
  unfold goint.wrap. f_equal.
  replace ((a - goint.minInt) mod 2 ^ goint.intSize + goint.minInt + b - goint.minInt)%Z
    with ((a - goint.minInt) mod 2 ^ goint.intSize + b)%Z by lia.
  rewrite Zplus_mod_idemp_l. f_equal. lia.
Qed.

Lemma fold_add_wrap (traffic : list TrafficTarget) :
  forall acc : Z,
    fold_left (fun a t => goint.add a (Percent t)) traffic (goint.wrap acc) =
    goint.wrap (acc + sumOfWeights traffic).
Proof.
  induction traffic as [|t rest IH]; intros acc; simpl.
  - now rewrite Z.add_0_r.
  - unfold goint.add at 2. rewrite wrap_add_wrap, IH. f_equal. lia.
Qed.

Lemma runningTotal_wrap (traffic : list TrafficTarget) :
  runningTotal traffic = goint.wrap (sumOfWeights traffic).
Proof.
  unfold runningTotal. change 0%Z with (goint.wrap 0) at 1.
  now rewrite fold_add_wrap.
Qed.

(** X11. The total [RouteSpec.Validate] compares with 100, [percentSum]
    when the loop ends, is the sum of the weights brought back into the
    range of [int]: it lies in that range and differs from the sum by a
    multiple of 2^64. So for a Spec other than the zero-valued one the
    SumMismatch findings of the result are those of the deprecated-field
    check, and one more, stating that reduced sum, exactly when it is not
    100. *)
Theorem running_total_wrapped_sum (ctx : context) (rs : RouteSpec) :
  let total := percentSum (finalState ctx rs) in
  let reduced := goint.wrap (sumOfWeights (Traffic rs)) in
  let deprecated := CheckDeprecated ctx [("generation", DeprecatedGeneration rs)] in
  total = reduced
  /\ goint.inRange total
  /\ ((total - sumOfWeights (Traffic rs)) mod 2 ^ goint.intSize = 0)%Z
  /\ (isZeroRouteSpec rs = false ->
      (reduced = 100%Z ->
       apis.ofKind apis.SumMismatch (RouteSpec_Validate ctx rs) =
       apis.ofKind apis.SumMismatch deprecated)
      /\ (reduced <> 100%Z ->
          apis.ofKind apis.SumMismatch (RouteSpec_Validate ctx rs) =
          apis.ofKind apis.SumMismatch deprecated
          ++ [apis.mkFinding
                (apis.MsgText ("Traffic targets sum to " +:+ fmt.d reduced +:+ ", want 100"))
                ["traffic"] []])).
Proof.
  intros total reduced deprecated.
  assert (H : total = reduced).
  { unfold total, reduced. rewrite finalState_percentSum. apply runningTotal_wrap. }
  split; [exact H|]. split; [rewrite H; apply wrap_range|]. split.
  - rewrite H. unfold reduced, goint.wrap.
    replace ((sumOfWeights (Traffic rs) - goint.minInt) mod 2 ^ goint.intSize
             + goint.minInt - sumOfWeights (Traffic rs))%Z
      with ((sumOfWeights (Traffic rs) - goint.minInt) mod 2 ^ goint.intSize
            - (sumOfWeights (Traffic rs) - goint.minInt))%Z by lia.
    rewrite Zminus_mod_idemp_l, Z.sub_diag. reflexivity.
  - intros Hz. rewrite (sumMismatch_specValidate ctx rs Hz), runningTotal_wrap.
    fold reduced. fold deprecated. split; intros Hr.
    + apply Z.eqb_eq in Hr. rewrite Hr. apply app_nil_r.
    + apply Z.eqb_neq in Hr. rewrite Hr. reflexivity.
Qed.

Lemma sumOfWeights_Permutation (l l' : list TrafficTarget) :
  Permutation l l' -> sumOfWeights l = sumOfWeights l'.
Proof. induction 1; simpl; lia. Qed.

(** X12. Whether a sum mismatch is reported, and with which total, does not
    depend on the order of the targets. *)
Theorem sum_check_order_independent (ctx : context) (rs rs' : RouteSpec) :
  Permutation (Traffic rs) (Traffic rs') ->
  DeprecatedGeneration rs = DeprecatedGeneration rs' ->
  apis.ofKind apis.SumMismatch (RouteSpec_Validate ctx rs) =
  apis.ofKind apis.SumMismatch (RouteSpec_Validate ctx rs').
Proof.
  intros Hp Hg.
  assert (Hz : isZeroRouteSpec rs = isZeroRouteSpec rs').
  { unfold isZeroRouteSpec. rewrite Hg. f_equal.
    destruct (Traffic rs), (Traffic rs'); try reflexivity.
    - apply Permutation_nil_l in Hp. discriminate.
    - apply Permutation_nil_r in Hp. discriminate. }
  destruct (isZeroRouteSpec rs) eqn:E.
  - unfold RouteSpec_Validate. now rewrite E, <- Hz.
  - rewrite !sumMismatch_specValidate by congruence.
    rewrite !runningTotal_wrap.
    now rewrite Hg, (sumOfWeights_Permutation _ _ Hp).
Qed.

Lemma sumOfWeights_bounded (traffic : list TrafficTarget) :
  Forall (fun t => (0 <= Percent t <= 100)%Z) traffic ->
  (0 <= sumOfWeights traffic <= 100 * Z.of_nat (length traffic))%Z.
Proof.
  induction 1 as [|t rest Ht _ IH]; simpl length; simpl sumOfWeights; lia.
Qed.

Lemma bounded_noOverflow (traffic : list TrafficTarget) :
  Forall (fun t => (0 <= Percent t <= 100)%Z) traffic ->
  (100 * Z.of_nat (length traffic) <= goint.maxInt)%Z ->
  noOverflow traffic.
Proof.
  intros Hb Hl k.
  assert (Hbk : Forall (fun t => (0 <= Percent t <= 100)%Z) (firstn k traffic))
    by now apply Forall_take.
  pose proof (sumOfWeights_bounded (firstn k traffic) Hbk) as H.
  rewrite length_take in H.
  unfold goint.inRange, goint.minInt, goint.maxInt, goint.intSize in *.
  change (2 ^ (64 - 1))%Z with 9223372036854775808%Z in *. lia.
Qed.

(** X13. When every weight is within 0..100 (and the targets are too few
    for 100 each to overflow an [int]), a Spec with at least one target has
    no SumMismatch finding if and only if its weights sum to exactly 100;
    the deprecated-field check is taken to report no sum mismatch of its
    own. *)
Theorem bounded_weights_sum_check (ctx : context) (rs : RouteSpec) :
  Traffic rs <> [] ->
  Forall (fun t => (0 <= Percent t <= 100)%Z) (Traffic rs) ->
  (100 * Z.of_nat (length (Traffic rs)) <= goint.maxInt)%Z ->
  apis.ofKind apis.SumMismatch
    (CheckDeprecated ctx [("generation", DeprecatedGeneration rs)]) = [] ->
  (apis.ofKind apis.SumMismatch (RouteSpec_Validate ctx rs) = []
   <-> sumOfWeights (Traffic rs) = 100%Z).
Proof. unused.
  intros Hne Hb Hl Hcd.
  rewrite <- (runningTotal_noOverflow _ (bounded_noOverflow _ Hb Hl)).
  rewrite (sumMismatch_specValidate ctx rs (isZeroRouteSpec_traffic rs Hne)), Hcd.
  simpl. destruct (runningTotal (Traffic rs) =? 100)%Z eqn:E.
  - apply Z.eqb_eq in E. tauto.
  - apply Z.eqb_neq in E. split; [discriminate | tauto].
Qed.

Lemma trafficMap_lookup_cases (m : gmap string nat) (n : string) :
  (exists ent, m !! n = Some ent) \/ m !! n = None.
Proof. destruct (m !! n) as [ent|]; [left; now exists ent | now right]. Qed.

(** ** The loop, target by target *)

Lemma indicesOf_app (n : string) (l1 l2 : list TrafficTarget) :
  forall i : nat,
    indicesOf n i (l1 ++ l2) = indicesOf n i l1 ++ indicesOf n (i + length l1) l2.
Proof.
  induction l1 as [|t l1 IH]; intros i; simpl.
  - now rewrite Nat.add_0_r.
  - rewrite IH. replace (S i + length l1)%nat with (i + S (length l1))%nat by lia.
    destruct (String.eqb (Name t) n); reflexivity.
Qed.

Lemma indicesOf_bound (n : string) (traffic : list TrafficTarget) (i k : nat) :
  In k (indicesOf n i traffic) -> (i <= k < i + length traffic)%nat.
Proof.
  intros H. apply indicesOf_spec in H. destruct H as (Hle & t & Hk & _).
  apply lookup_lt_Some in Hk. lia.
Qed.

Lemma recordsFirst_step (seen : list TrafficTarget) (m : gmap string nat)
    (tt : TrafficTarget) :
  recordsFirst seen m -> recordsFirst (seen ++ [tt]) (recordName m (length seen) tt).
Proof.
  intros [He Hn]. unfold recordName, recordsFirst, firstIndexOf in *.
  destruct (isEmptyString (Name tt)) eqn:En.
  - apply isEmptyString_true in En. split; [exact He|].
    intros n Hne. rewrite indicesOf_app. simpl. rewrite En.
    replace (String.eqb EmptyString n) with false
      by (symmetry; apply String.eqb_neq; congruence).
    rewrite app_nil_r. now apply Hn.
  - apply isEmptyString_false in En.
    destruct (trafficMap_lookup_cases m (Name tt)) as [[ent El]|El]; rewrite El.
    + split; [exact He|]. intros n Hne. rewrite indicesOf_app. simpl.
      destruct (String.eqb_spec (Name tt) n) as [<-|Et].
      * rewrite (Hn _ En) in El |- *.
        destruct (indicesOf (Name tt) 0 seen); [discriminate | reflexivity].
      * rewrite app_nil_r. now apply Hn.
    + split; [rewrite lookup_insert_ne by exact En; exact He|].
      intros n Hne. rewrite indicesOf_app. simpl.
      destruct (String.eqb_spec (Name tt) n) as [<-|Et].
      * rewrite lookup_insert_eq. rewrite (Hn _ En) in El.
        destruct (indicesOf (Name tt) 0 seen); [reflexivity | discriminate].
      * rewrite lookup_insert_ne by exact Et. rewrite app_nil_r. now apply Hn.
Qed.

Lemma duplicateOf_duplicateAt (seen rest : list TrafficTarget)
    (m : gmap string nat) (tt : TrafficTarget) :
  recordsFirst seen m ->
  duplicateOf m (length seen) tt = duplicateAt (seen ++ tt :: rest) (length seen) tt.
Proof.
  intros [_ Hn]. unfold duplicateOf, duplicateAt, firstIndexOf in *.
  destruct (isEmptyString (Name tt)) eqn:En; [reflexivity|].
  apply isEmptyString_false in En. rewrite (Hn _ En), indicesOf_app. simpl.
  rewrite String.eqb_refl.
  destruct (indicesOf (Name tt) 0 seen) as [|j js] eqn:Ei; simpl.
  - rewrite Nat.ltb_irrefl. reflexivity.
  - assert (Hj : (j < length seen)%nat).
    { assert (Hin : In j (indicesOf (Name tt) 0 seen)) by (rewrite Ei; now left).
      apply indicesOf_bound in Hin. lia. }
    apply Nat.ltb_lt in Hj. now rewrite Hj.
Qed.

Lemma rangeTraffic_findingsFrom (ctx : context) (all : list TrafficTarget) :
  forall (rest seen : list TrafficTarget) (st : loopState),
    all = seen ++ rest ->
    recordsFirst seen (trafficMap st) ->
    errs (rangeTraffic ctx st (length seen) rest) =
      errs st ++ findingsFrom ctx all (length seen) rest
    /\ recordsFirst all (trafficMap (rangeTraffic ctx st (length seen) rest)).
Proof.
  induction rest as [|t rest IH]; intros seen st Hall Hinv.
  - simpl. rewrite app_nil_r in *. subst all. auto.
  - simpl rangeTraffic. simpl findingsFrom.
    destruct (loopBody_fields ctx st (length seen) t) as (He & _ & Hm).
    assert (Hall' : all = (seen ++ [t]) ++ rest) by (now rewrite <- app_assoc).
    assert (Hinv' : recordsFirst (seen ++ [t])
                      (trafficMap (loopBody ctx st (length seen) t))).
    { rewrite Hm. now apply recordsFirst_step. }
    destruct (IH (seen ++ [t]) _ Hall' Hinv') as [IHe IHm].
    rewrite length_app in IHe, IHm. simpl in IHe, IHm.
    rewrite Nat.add_1_r in IHe, IHm.
    split; [|exact IHm].
    rewrite IHe, He, (duplicateOf_duplicateAt seen rest _ t Hinv), <- Hall.
    now rewrite <- !app_assoc.
Qed.

Lemma recordsFirst_empty : recordsFirst [] (∅ : gmap string nat).
Proof. split; [apply lookup_empty|]. intros n _. apply lookup_empty. Qed.

(** X9. The loop and the two checks around it, written out: for a Spec
    other than the zero-valued one the result is the findings of the
    deprecated-field check, then for each target in order what the Target
    Validator returns under traffic[i] followed by the finding about its
    name when an earlier target has it, then the sum mismatch when the
    running total is not 100. Nothing else is reported and nothing is
    dropped. *)
Theorem spec_findings_in_order (ctx : context) (rs : RouteSpec) :
  isZeroRouteSpec rs = false ->
  RouteSpec_Validate ctx rs =
    CheckDeprecated ctx [("generation", DeprecatedGeneration rs)]
    ++ findingsFrom ctx (Traffic rs) 0 (Traffic rs)
    ++ (if (runningTotal (Traffic rs) =? 100)%Z then []
        else [sumMismatch (runningTotal (Traffic rs))]).
Proof.
  intros Hz. rewrite (specValidate_nonzero ctx rs Hz). unfold finalState.
  destruct (rangeTraffic_findingsFrom ctx (Traffic rs) (Traffic rs) []
              (mkLoopState
                 (CheckDeprecated ctx [("generation", DeprecatedGeneration rs)]) 0 ∅)
              eq_refl recordsFirst_empty) as [He _].
  simpl in He. rewrite He. now rewrite <- app_assoc.
Qed.

(** X7. When the loop ends, [trafficMap] holds for every non-empty name
    the index of the first target with that name (nothing for a name no
    target has: an entry is never overwritten), and nothing for the empty
    name. *)
Theorem trafficMap_first_occurrence (ctx : context) (rs : RouteSpec) (n : string) :
  trafficMap (finalState ctx rs) !! n =
    if isEmptyString n then None else firstIndexOf n (Traffic rs).
Proof.
  unfold finalState.
  destruct (rangeTraffic_findingsFrom ctx (Traffic rs) (Traffic rs) []
              (mkLoopState
                 (CheckDeprecated ctx [("generation", DeprecatedGeneration rs)]) 0 ∅)
              eq_refl recordsFirst_empty) as [_ [He Hn]].
  simpl in He, Hn. destruct (isEmptyString n) eqn:En.
  - apply isEmptyString_true in En. now subst n.
  - apply isEmptyString_false in En. now apply Hn.
Qed.

(** ** Acceptance by the Spec Validator *)

Lemma namesOf_cons (t : TrafficTarget) (rest : list TrafficTarget) :
  namesOf (t :: rest) =
  if isEmptyString (Name t) then namesOf rest else Name t :: namesOf rest.
Proof. unfold namesOf. simpl. destruct (isEmptyString (Name t)); reflexivity. Qed.

Lemma ViaFieldIndex_absent (field : string) (i : nat) (fe : FieldError) :
  apis.ViaFieldIndex field i fe = [] <-> fe = [].
Proof.
  unfold apis.ViaFieldIndex, apis.ViaIndex. now rewrite !ViaField_absent.
Qed.

(** The loop leaves [errs] empty exactly when it was empty, every target
    is accepted, and the names met are new to the map and to each other. *)
Lemma rangeTraffic_clean (ctx : context) (rest : list TrafficTarget) :
  forall (st : loopState) (i : nat),
    errs (rangeTraffic ctx st i rest) = [] <->
    errs st = []
    /\ Forall (fun t => TrafficTarget_Validate ctx t = apis.absent) rest
    /\ (forall n : string, n ∈ namesOf rest -> trafficMap st !! n = None)
    /\ NoDup (namesOf rest).
Proof. unused.
  induction rest as [|t rest IH]; intros st i.
  - simpl. split; [|tauto]. intros H. split; [exact H|]. split; [constructor|].
    split; [|constructor]. intros n Hn. inversion Hn.
  - simpl rangeTraffic. rewrite IH.
    destruct (loopBody_fields ctx st i t) as (He & _ & Hm). rewrite He, Hm.
    rewrite namesOf_cons, Forall_cons. unfold duplicateOf, recordName.
    destruct (isEmptyString (Name t)) eqn:En.
    + rewrite app_nil_r. split.
      * intros (H1 & H2 & H3 & H4). apply app_eq_nil in H1. destruct H1 as [H1 H1'].
        apply ViaFieldIndex_absent in H1'. auto.
      * intros (H1 & [H2 H2'] & H3 & H4). rewrite H1, H2. auto.
    + destruct (trafficMap st !! Name t) as [ent|] eqn:El.
      * split.
        -- intros (H1 & _). apply app_eq_nil in H1. destruct H1 as [_ H1].
           apply app_eq_nil in H1. destruct H1 as [_ H1]. discriminate.
        -- intros (_ & _ & H3 & _).
           rewrite (H3 (Name t)) in El by (apply elem_of_cons; now left).
           discriminate.
      * rewrite app_nil_r, NoDup_cons. split.
        -- intros (H1 & H2 & H3 & H4). apply app_eq_nil in H1. destruct H1 as [H1 H1'].
           apply ViaFieldIndex_absent in H1'.
           assert (Hnew : Name t ∉ namesOf rest).
           { intros Hin. specialize (H3 _ Hin). rewrite lookup_insert_eq in H3.
             discriminate. }
           repeat split; auto.
           intros n Hn. apply elem_of_cons in Hn. destruct Hn as [->|Hn]; [exact El|].
           rewrite <- (H3 n Hn). symmetry. apply lookup_insert_ne.
           intros E. subst n. contradiction.
        -- intros (H1 & [H2 H2'] & H3 & [H4 H4']). rewrite H1, H2.
           repeat split; auto.
           intros n Hn. rewrite lookup_insert_ne.
           ++ apply H3. apply elem_of_cons. now right.
           ++ intros E. subst n. contradiction.
Qed.

Lemma specValidate_absent_iff (ctx : context) (rs : RouteSpec) :
  RouteSpec_Validate ctx rs = apis.absent <->
  Traffic rs <> []
  /\ CheckDeprecated ctx [("generation", DeprecatedGeneration rs)] = apis.absent
  /\ Forall (fun t => TrafficTarget_Validate ctx t = apis.absent) (Traffic rs)
  /\ NoDup (namesOf (Traffic rs))
  /\ runningTotal (Traffic rs) = 100%Z.
Proof.
  unfold apis.absent at 1 2. split.
  - intros H.
    assert (Hne : Traffic rs <> []).
    { intros Ht. exact (specValidate_no_targets ctx rs Ht H). }
    rewrite (specValidate_nonzero ctx rs (isZeroRouteSpec_traffic rs Hne)) in H.
    apply app_eq_nil in H. destruct H as [H1 H2].
    unfold finalState in H1. apply rangeTraffic_clean in H1. simpl in H1.
    destruct H1 as (Hc & Hf & _ & Hn).
    repeat split; auto.
    destruct (runningTotal (Traffic rs) =? 100)%Z eqn:E; [|discriminate].
    now apply Z.eqb_eq.
  - intros (Hne & Hc & Hf & Hn & Ht).
    rewrite (specValidate_nonzero ctx rs (isZeroRouteSpec_traffic rs Hne)).
    apply Z.eqb_eq in Ht. rewrite Ht, app_nil_r.
    unfold finalState. apply rangeTraffic_clean. simpl.
    repeat split; auto. all: intros n _; apply lookup_empty.
Qed.

(** X4. [RouteSpec.Validate] returns no error exactly when the Spec has at
    least one target, the deprecated-field check returns none, every target
    is accepted by the Target Validator, no two targets share a non-empty
    name, and the running total of the weights is 100. *)
Theorem spec_accepted_iff (ctx : context) (rs : RouteSpec) :
  RouteSpec_Validate ctx rs = apis.absent <->
  Traffic rs <> []
  /\ CheckDeprecated ctx [("generation", DeprecatedGeneration rs)] = apis.absent
  /\ Forall (fun t => TrafficTarget_Validate ctx t = apis.absent) (Traffic rs)
  /\ NoDup (namesOf (Traffic rs))
  /\ runningTotal (Traffic rs) = 100%Z.
Proof. apply specValidate_absent_iff. Qed.

(** X5. An accepted Spec is sound: every weight is within 0..100 and the
    weights sum to exactly 100 as integers, provided the targets are too
    few for 100 each to overflow an [int]. *)
Theorem accepted_spec_sums_to_100 (ctx : context) (rs : RouteSpec) :
  RouteSpec_Validate ctx rs = apis.absent ->
  (100 * Z.of_nat (length (Traffic rs)) <= goint.maxInt)%Z ->
  Forall (fun t => (0 <= Percent t <= 100)%Z) (Traffic rs)
  /\ sumOfWeights (Traffic rs) = 100%Z.
Proof. unused.
  intros H Hl. apply specValidate_absent_iff in H.
  destruct H as (_ & _ & Hf & _ & Ht).
  assert (Hb : Forall (fun t => (0 <= Percent t <= 100)%Z) (Traffic rs)).
  { eapply Forall_impl; [exact Hf|]. intros t Hv.
    apply targetValidate_absent_iff in Hv. tauto. }
  split; [exact Hb|].
  now rewrite <- (runningTotal_noOverflow _ (bounded_noOverflow _ Hb Hl)).
Qed.

(** ** Counting the duplicates *)

Lemma rangeTraffic_count (ctx : context) (rest : list TrafficTarget) :
  forall (st : loopState) (i : nat),
    (length (apis.ofKind apis.DuplicateDefinition (errs (rangeTraffic ctx st i rest)))
     + size (trafficMap (rangeTraffic ctx st i rest)) =
     length (apis.ofKind apis.DuplicateDefinition (errs st))
     + size (trafficMap st) + length (namesOf rest))%nat.
Proof.
  induction rest as [|t rest IH]; intros st i.
  - simpl. lia.
  - simpl rangeTraffic. rewrite IH.
    destruct (loopBody_fields ctx st i t) as (He & _ & Hm). rewrite He, Hm.
    rewrite !ofKind_app, !length_app, namesOf_cons.
    unfold apis.ofKind at 2.
    rewrite target_findings_filtered by apply text_kind_duplicate.
    unfold duplicateOf, recordName.
    destruct (isEmptyString (Name t)) eqn:En; [simpl; lia|].
    destruct (trafficMap st !! Name t) as [ent|] eqn:El.
    + unfold apis.ofKind. simpl.
      destruct (multipleDefinitions_kind (Name t) ent i) as (-> & _). simpl. lia.
    + rewrite map_size_insert_None by exact El. simpl. lia.
Qed.

Lemma rangeTraffic_dom (ctx : context) (rest : list TrafficTarget) :
  forall (st : loopState) (i : nat),
    dom (trafficMap (rangeTraffic ctx st i rest)) =
    dom (trafficMap st) ∪ list_to_set (namesOf rest).
Proof.
  induction rest as [|t rest IH]; intros st i.
  - simpl. now rewrite (right_id_L ∅ (∪)).
  - simpl rangeTraffic. rewrite IH.
    destruct (loopBody_fields ctx st i t) as (_ & _ & Hm). rewrite Hm.
    rewrite namesOf_cons. unfold recordName.
    destruct (isEmptyString (Name t)) eqn:En; [reflexivity|].
    destruct (trafficMap st !! Name t) as [ent|] eqn:El.
    + assert (Hin : Name t ∈ dom (trafficMap st)) by (apply elem_of_dom; eauto).
      simpl. rewrite (assoc_L (∪)). f_equal. symmetry.
      rewrite (comm_L (∪)). apply subseteq_union_1_L.
      now apply singleton_subseteq_l.
    + rewrite dom_insert_L. simpl.
      now rewrite (assoc_L (∪)), (comm_L (∪) (dom (trafficMap st))).
Qed.

(** X8. The number of DuplicateDefinition findings the loop adds is the
    number of named targets less the number of different names: together
    with the different names, the duplicates reported (beyond those of the
    deprecated-field check) count the named targets. *)
Theorem duplicate_count (ctx : context) (rs : RouteSpec) :
  isZeroRouteSpec rs = false ->
  (length (apis.ofKind apis.DuplicateDefinition (RouteSpec_Validate ctx rs))
   + size (list_to_set (namesOf (Traffic rs)) : gset string) =
   length (apis.ofKind apis.DuplicateDefinition
             (CheckDeprecated ctx [("generation", DeprecatedGeneration rs)]))
   + length (namesOf (Traffic rs)))%nat.
Proof.
  intros Hz. rewrite (duplicates_specValidate ctx rs Hz). unfold finalState.
  pose proof (rangeTraffic_count ctx (Traffic rs)
                (mkLoopState
                   (CheckDeprecated ctx [("generation", DeprecatedGeneration rs)]) 0 ∅)
                0) as Hc.
  pose proof (rangeTraffic_dom ctx (Traffic rs)
                (mkLoopState
                   (CheckDeprecated ctx [("generation", DeprecatedGeneration rs)]) 0 ∅)
                0) as Hd.
  simpl in Hc, Hd. rewrite dom_empty_L, (left_id_L ∅ (∪)) in Hd.
  rewrite <- Hd, size_dom. rewrite map_size_empty in Hc. lia.
Qed.

(** ** Where the findings of a target surface *)

Lemma targetValidate_paths (ctx : context) (tt : TrafficTarget) (e : apis.Finding)
    (path : string) :
  In e (TrafficTarget_Validate ctx tt) -> In path (apis.Paths e) ->
  In path ["revisionName"; "configurationName"; "percent"; "url"].
Proof. unused.
  rewrite targetValidate_rules, !in_app_iff.
  unfold selectorRule, boundsRule, urlRule.
  destruct (isEmptyString (RevisionName tt)), (isEmptyString (ConfigurationName tt)),
    ((Percent tt <? 0)%Z || (Percent tt >? 100)%Z), (isEmptyString (URL tt));
    try destruct (IsQualifiedName (RevisionName tt));
    try destruct (IsQualifiedName (ConfigurationName tt));
    simpl; intros [H|[H|H]] Hp;
    repeat match goal with
           | H : _ \/ _ |- _ => destruct H
           | H : False |- _ => destruct H
           | H : {| apis.Message := _ |} = e |- _ => subst e; simpl in Hp
           end; tauto.
Qed.

(** X10. No finding of a target is lost or moved: whatever the Target
    Validator returns for the target at index [k] is in the result of the
    Spec Validator with the same message and details, each of its paths
    with traffic[k]. in front. *)
Theorem target_findings_surface (ctx : context) (rs : RouteSpec) (k : nat)
    (t : TrafficTarget) (e : apis.Finding) :
  Traffic rs !! k = Some t ->
  In e (TrafficTarget_Validate ctx t) ->
  In (apis.mkFinding (apis.Message e)
        (map (fun path => "traffic[" +:+ fmt.d (Z.of_nat k) +:+ "]." +:+ path)
             (apis.Paths e))
        (apis.Details e))
     (RouteSpec_Validate ctx rs).
Proof.
  intros Hk He.
  assert (Hz : isZeroRouteSpec rs = false).
  { apply isZeroRouteSpec_traffic. intros E. rewrite E in Hk. discriminate. }
  rewrite (specValidate_nonzero ctx rs Hz). apply in_or_app. left.
  unfold finalState. apply (rangeTraffic_errs_target ctx _ _ 0 k t _ Hk).
  unfold apis.ViaFieldIndex, apis.ViaIndex, apis.ViaField.
  rewrite List.map_map. apply List.in_map_iff. exists e. split; [|exact He].
  simpl. f_equal. rewrite List.map_map. apply List.map_ext_in.
  intros path Hp. pose proof (targetValidate_paths ctx t e path He Hp) as Hf.
  apply joinPath_traffic_index;
    simpl in Hf; destruct Hf as [<-|[<-|[<-|[<-|[]]]]]; (discriminate || reflexivity).
Qed.

(** ** What the Spec Validator adds of its own *)

Lemma kindOf_ViaField (prefix : string) (fe : FieldError) (e : apis.Finding) :
  In e (apis.ViaField prefix fe) ->
  exists e0, In e0 fe /\ apis.kindOf e = apis.kindOf e0.
Proof.
  unfold apis.ViaField. intros H. apply List.in_map_iff in H.
  destruct H as (e0 & <- & H0). exists e0. split; [exact H0 | reflexivity].
Qed.

Lemma targetValidate_kinds (ctx : context) (tt : TrafficTarget) (e : apis.Finding) :
  In e (TrafficTarget_Validate ctx tt) ->
  exists k, apis.kindOf e = Some k /\ ownKind k.
Proof. unused.
  rewrite targetValidate_rules, !in_app_iff.
  unfold selectorRule, boundsRule, urlRule, ownKind.
  destruct (isEmptyString (RevisionName tt)), (isEmptyString (ConfigurationName tt)),
    ((Percent tt <? 0)%Z || (Percent tt >? 100)%Z), (isEmptyString (URL tt));
    try destruct (IsQualifiedName (RevisionName tt));
    try destruct (IsQualifiedName (ConfigurationName tt));
    simpl; intros [H|[H|H]];
    repeat match goal with
           | H : _ \/ _ |- _ => destruct H
           | H : False |- _ => destruct H
           | H : {| apis.Message := _ |} = e |- _ => subst e
           end; eexists; (split; [reflexivity | simpl; tauto]).
Qed.

Lemma multipleDefinitions_kindOf (n : string) (ent i : nat) :
  apis.kindOf (multipleDefinitions n ent i) = Some apis.DuplicateDefinition.
Proof.
  unfold apis.kindOf, multipleDefinitions. simpl. now rewrite prefix_append.
Qed.

Lemma sumMismatch_kindOf (total : Z) :
  apis.kindOf (sumMismatch total) = Some apis.SumMismatch.
Proof.
  unfold apis.kindOf, sumMismatch. simpl. rewrite prefix_append.
  change (String.prefix "Multiple definitions for "
            ("Traffic targets sum to " +:+ fmt.d total +:+ ", want 100")) with false.
  reflexivity.
Qed.

Lemma findingsFrom_own (ctx : context) (all rest : list TrafficTarget) :
  forall (i : nat) (e : apis.Finding),
    In e (findingsFrom ctx all i rest) ->
    (exists k, apis.kindOf e = Some k /\ ownKind k)
    /\ (forall path, In path (apis.Paths e) -> String.prefix "traffic" path = true).
Proof. unused.
  induction rest as [|t rest IH]; intros i e He; [destruct He|].
  simpl in He. rewrite !in_app_iff in He. destruct He as [He|[He|He]].
  - split.
    + unfold apis.ViaFieldIndex, apis.ViaIndex in He.
      apply kindOf_ViaField in He. destruct He as (e1 & He1 & ->).
      apply kindOf_ViaField in He1. destruct He1 as (e0 & He0 & ->).
      exact (targetValidate_kinds ctx t e0 He0).
    + intros path Hp. exact (ViaField_paths _ _ _ _ He Hp).
  - unfold duplicateAt in He.
    destruct (isEmptyString (Name t)); [destruct He|].
    destruct (firstIndexOf (Name t) all) as [j|]; [|destruct He].
    destruct (j <? i)%nat; [|destruct He].
    destruct He as [<-|[]]. split.
    + exists apis.DuplicateDefinition. split; [apply multipleDefinitions_kindOf|].
      unfold ownKind. simpl. tauto.
    + simpl. intros path [<-|[<-|[]]]; reflexivity.
  - exact (IH (S i) e He).
Qed.

Lemma specValidate_own (ctx : context) (rs : RouteSpec) :
  isZeroRouteSpec rs = false ->
  exists own : FieldError,
    RouteSpec_Validate ctx rs =
      CheckDeprecated ctx [("generation", DeprecatedGeneration rs)] ++ own
    /\ forall e, In e own ->
         (exists k, apis.kindOf e = Some k /\ ownKind k)
         /\ (forall path, In path (apis.Paths e) -> String.prefix "traffic" path = true).
Proof. unused.
  intros Hz. rewrite (specValidate_nonzero ctx rs Hz). unfold finalState.
  destruct (rangeTraffic_findingsFrom ctx (Traffic rs) (Traffic rs) []
              (mkLoopState
                 (CheckDeprecated ctx [("generation", DeprecatedGeneration rs)]) 0 ∅)
              eq_refl recordsFirst_empty) as [He _].
  simpl in He. rewrite He, <- app_assoc.
  eexists. split; [reflexivity|].
  intros e Hin. apply in_app_or in Hin. destruct Hin as [Hin|Hin].
  - exact (findingsFrom_own ctx _ _ 0 e Hin).
  - destruct (runningTotal (Traffic rs) =? 100)%Z; [destruct Hin|].
    destruct Hin as [<-|[]]. split.
    + exists apis.SumMismatch. split; [apply sumMismatch_kindOf|].
      unfold ownKind. simpl. tauto.
    + simpl. intros path [<-|[]]. reflexivity.
Qed.

(** X14. For a Spec other than the zero-valued one, what the Spec
    Validator adds after the findings of the deprecated-field check is only
    of the kinds MultipleOneOf, MissingOneOf, InvalidKeyName,
    OutOfBoundsValue, DisallowedFields, DuplicateDefinition and SumMismatch:
    it never adds a MissingField finding. *)
Theorem spec_adds_known_kinds (ctx : context) (rs : RouteSpec) :
  isZeroRouteSpec rs = false ->
  exists own : FieldError,
    RouteSpec_Validate ctx rs =
      CheckDeprecated ctx [("generation", DeprecatedGeneration rs)] ++ own
    /\ apis.ofKind apis.MissingField own = []
    /\ forall e, In e own -> exists k, apis.kindOf e = Some k /\ ownKind k.
Proof.
  intros Hz. destruct (specValidate_own ctx rs Hz) as (own & Heq & Hown).
  exists own. split; [exact Heq|]. split.
  - clear Heq. unfold apis.ofKind. induction own as [|e own IH]; [reflexivity|].
    simpl. destruct (Hown e (or_introl eq_refl)) as [(k & Hk & Hin) _].
    unfold apis.hasKind at 1. rewrite Hk.
    assert (Hne : apis.Kind_eqb apis.MissingField k = false).
    { unfold ownKind in Hin. simpl in Hin.
      destruct Hin as [<-|[<-|[<-|[<-|[<-|[<-|[<-|[]]]]]]]]; reflexivity. }
    rewrite Hne. apply IH. intros e' He'. apply Hown. now right.
  - intros e He. exact (proj1 (Hown e He)).
Qed.

(** X15. For a Spec other than the zero-valued one, every path of every
    finding the Spec Validator adds after those of the deprecated-field
    check lies under "traffic". *)
Theorem spec_paths_under_traffic (ctx : context) (rs : RouteSpec) :
  isZeroRouteSpec rs = false ->
  exists own : FieldError,
    RouteSpec_Validate ctx rs =
      CheckDeprecated ctx [("generation", DeprecatedGeneration rs)] ++ own
    /\ forall e path, In e own -> In path (apis.Paths e) ->
         String.prefix "traffic" path = true.
Proof.
  intros Hz. destruct (specValidate_own ctx rs Hz) as (own & Heq & Hown).
  exists own. split; [exact Heq|].
  intros e path He Hp. exact (proj2 (Hown e He) path Hp).
Qed.

(** X16. An accepted Route is sound: its Spec has at least one target,
    each target has exactly one of the two references set, a weight within
    0..100 and no URL, no two targets share a non-empty name, and the
    weights sum to exactly 100 as integers, provided the targets are too
    few for 100 each to overflow an [int]. *)
Theorem accepted_route_sound (ctx : context) (r : Route) :
  Route_Validate ctx r = apis.absent ->
  (100 * Z.of_nat (length (Traffic (Spec r))) <= goint.maxInt)%Z ->
  Traffic (Spec r) <> []
  /\ Forall (fun t =>
               (RevisionName t = EmptyString <-> ConfigurationName t <> EmptyString)
               /\ (0 <= Percent t <= 100)%Z /\ URL t = EmptyString)
            (Traffic (Spec r))
  /\ NoDup (namesOf (Traffic (Spec r)))
  /\ sumOfWeights (Traffic (Spec r)) = 100%Z.
Proof.
  intros H Hl. apply routeValidate_absent_iff in H. destruct H as [_ H].
  apply specValidate_absent_iff in H. destruct H as (Hne & _ & Hf & Hn & Ht).
  assert (Hb : Forall (fun t => (0 <= Percent t <= 100)%Z) (Traffic (Spec r))).
  { eapply Forall_impl; [exact Hf|]. intros t Hv.
    apply targetValidate_absent_iff in Hv. tauto. }
  split; [exact Hne|]. split; [|split; [exact Hn|]].
  - eapply Forall_impl; [exact Hf|]. intros t Hv.
    apply targetValidate_absent_iff in Hv.
    destruct Hv as ([(Hr & Hc & _)|(Hr & Hc & _)] & Hp & Hu);
      (split; [|split; [exact Hp | exact Hu]]); split; intros; congruence.
  - now rewrite <- (runningTotal_noOverflow _ (bounded_noOverflow _ Hb Hl)).
Qed.

End Validation.

(** * The validators on sample routes *)

Abbreviation sampleTarget :=
  (TrafficTarget_Validate unit Sample.IsQualifiedName tt).
Abbreviation sampleSpec :=
  (RouteSpec_Validate unit Sample.CheckDeprecated Sample.IsQualifiedName Sample.Quote tt).
Abbreviation sampleRoute :=
  (Route_Validate unit (fun ctx => ctx) unit (fun _ => apis.absent)
     Sample.CheckDeprecated Sample.IsQualifiedName Sample.Quote tt).

Lemma Sample_Quote_inj (a b : string) : Sample.Quote a = Sample.Quote b -> a = b.
Proof.
  unfold Sample.Quote. intros H.
  apply (inj (String.app _)) in H. now apply append_inv_tail in H.
Qed.

(** The claim C1 as first written fails on [overflowSpec]: its weights are
    values of [int], their sum is not 100, and no sum mismatch is reported,
    because the running total wraps around to 100. *)
Lemma sum_of_weights_counterexample :
  Traffic overflowSpec <> []
  /\ Forall (fun t => goint.inRange (Percent t)) (Traffic overflowSpec)
  /\ sumOfWeights (Traffic overflowSpec) = (2 ^ 64 + 100)%Z
  /\ runningTotal (Traffic overflowSpec) = 100%Z
  /\ ~ (apis.ofKind apis.SumMismatch (sampleSpec overflowSpec) = []
        <-> sumOfWeights (Traffic overflowSpec) = 100%Z).
Proof.
  split; [discriminate|]. split.
  { repeat constructor; vm_compute; discriminate. }
  split; [reflexivity|]. split; [reflexivity|].
  intros [H _]. specialize (H eq_refl). vm_compute in H. discriminate.
Qed.

Lemma sum_mismatch_iff_running_total_witness :
  Traffic unevenSpec <> []
  /\ apis.ofKind apis.SumMismatch
       (Sample.CheckDeprecated tt [("generation", DeprecatedGeneration unevenSpec)]) = []
  /\ (apis.ofKind apis.SumMismatch (sampleSpec unevenSpec) = []
       <-> runningTotal (Traffic unevenSpec) = 100%Z).
Proof.
  assert (H1 : Traffic unevenSpec <> []) by discriminate.
  assert (H2 : apis.ofKind apis.SumMismatch
                 (Sample.CheckDeprecated tt
                    [("generation", DeprecatedGeneration unevenSpec)]) = [])
    by reflexivity.
  split; [exact H1|]. split; [exact H2|].
  exact (proj1 (sum_mismatch_iff_running_total unit Sample.CheckDeprecated
                  Sample.IsQualifiedName Sample.Quote tt unevenSpec H1 H2)).
Defined.

Lemma duplicate_definitions_witness :
  "a" <> EmptyString
  /\ indicesOf "a" 0 (Traffic repeatedNameSpec) = [0; 2; 4]%nat
  /\ List.filter (namesDuplicate Sample.Quote "a")
       (apis.ofKind apis.DuplicateDefinition (sampleSpec repeatedNameSpec)) =
     [apis.mkFinding (apis.MsgText ("Multiple definitions for " +:+ Sample.Quote "a"))
        ["traffic[0].name"; "traffic[2].name"] [];
      apis.mkFinding (apis.MsgText ("Multiple definitions for " +:+ Sample.Quote "a"))
        ["traffic[0].name"; "traffic[4].name"] []].
Proof.
  assert (H1 : "a" <> EmptyString) by discriminate.
  assert (H2 : indicesOf "a" 0 (Traffic repeatedNameSpec) = [0; 2; 4]%nat)
    by reflexivity.
  split; [exact H1|]. split; [exact H2|].
  exact (proj1 (duplicate_definitions unit Sample.CheckDeprecated
                  Sample.IsQualifiedName Sample.Quote tt repeatedNameSpec
                  "a" 0%nat [2; 4]%nat H1 H2 eq_refl Sample_Quote_inj)).
Defined.

Lemma empty_spec_missing_field_witness :
  DeprecatedGeneration (mkRouteSpec 0 []) = 0%Z
  /\ Traffic (mkRouteSpec 0 []) = []
  /\ sampleRoute (mkRoute unit tt (mkRouteSpec 0 [])) =
     [apis.mkFinding apis.MsgMissingField ["spec"] []].
Proof.
  split; [reflexivity|]. split; [reflexivity|].
  exact (proj2 (empty_spec_missing_field unit (fun ctx => ctx) unit
                  (fun _ => apis.absent) Sample.CheckDeprecated
                  Sample.IsQualifiedName Sample.Quote tt (mkRouteSpec 0 [])
                  eq_refl eq_refl)
               (mkRoute unit tt (mkRouteSpec 0 [])) eq_refl).
Defined.

Lemma valid_target_no_error_witness :
  sampleTarget (mkTrafficTarget "canary" EmptyString "main" 100 EmptyString) = apis.absent.
Proof.
  apply valid_target_no_error.
  - right. split; [reflexivity|]. split; [discriminate | reflexivity].
  - simpl. lia.
  - reflexivity.
Defined.

Lemma zero_targets_sum_mismatch_witness :
  isZeroRouteSpec (mkRouteSpec 7 []) = false
  /\ sampleSpec (mkRouteSpec 7 []) =
     [apis.mkFinding apis.MsgDisallowedFields ["generation"] [];
      apis.mkFinding (apis.MsgText "Traffic targets sum to 0, want 100") ["traffic"] []].
Proof.
  split; [reflexivity|].
  exact (zero_targets_sum_mismatch unit Sample.CheckDeprecated Sample.IsQualifiedName
           Sample.Quote tt (mkRouteSpec 7 []) eq_refl eq_refl).
Defined.

(** ** The further properties on sample routes *)

Lemma route_paths_under_metadata_or_spec_witness :
  In (apis.mkFinding apis.MsgMissingField ["spec"] [])
     (sampleRoute (mkRoute unit tt (mkRouteSpec 0 [])))
  /\ (String.prefix "metadata" "spec" = true \/ String.prefix "spec" "spec" = true).
Proof.
  assert (H1 : In (apis.mkFinding apis.MsgMissingField ["spec"] [])
                  (sampleRoute (mkRoute unit tt (mkRouteSpec 0 []))))
    by (left; reflexivity).
  split; [exact H1|].
  exact (route_paths_under_metadata_or_spec unit (fun ctx => ctx) unit
           (fun _ => apis.absent) Sample.CheckDeprecated Sample.IsQualifiedName
           Sample.Quote tt (mkRoute unit tt (mkRouteSpec 0 []))
           (apis.mkFinding apis.MsgMissingField ["spec"] []) "spec"
           H1 (or_introl eq_refl)).
Defined.

Lemma accepted_spec_sums_to_100_witness :
  sampleSpec evenSpec = apis.absent
  /\ (100 * Z.of_nat (length (Traffic evenSpec)) <= goint.maxInt)%Z
  /\ sumOfWeights (Traffic evenSpec) = 100%Z.
Proof.
  assert (Hl : (100 * Z.of_nat (length (Traffic evenSpec)) <= goint.maxInt)%Z)
    by (vm_compute; discriminate).
  split; [reflexivity|]. split; [exact Hl|].
  exact (proj2 (accepted_spec_sums_to_100 unit Sample.CheckDeprecated
                  Sample.IsQualifiedName Sample.Quote tt evenSpec eq_refl Hl)).
Defined.

Lemma spec_without_targets_rejected_witness :
  Traffic (mkRouteSpec 7 []) = []
  /\ sampleSpec (mkRouteSpec 7 []) <> apis.absent
  /\ sampleSpec (mkRouteSpec 7 []) =
     [apis.mkFinding apis.MsgDisallowedFields ["generation"] [];
      apis.mkFinding (apis.MsgText "Traffic targets sum to 0, want 100") ["traffic"] []].
Proof.
  assert (Hg : DeprecatedGeneration (mkRouteSpec 7 []) <> 0%Z) by discriminate.
  split; [reflexivity|]. split.
  - exact (proj1 (spec_without_targets_rejected unit Sample.CheckDeprecated
                    Sample.IsQualifiedName Sample.Quote tt (mkRouteSpec 7 []) eq_refl)).
  - exact (proj2 (proj2 (spec_without_targets_rejected unit Sample.CheckDeprecated
                           Sample.IsQualifiedName Sample.Quote tt (mkRouteSpec 7 [])
                           eq_refl)) Hg).
Defined.

Lemma out_of_bounds_weights_counted_witness :
  Traffic overweightSpec <> []
  /\ runningTotal (Traffic overweightSpec) <> 100%Z
  /\ apis.ofKind apis.SumMismatch (sampleSpec overweightSpec) =
     [apis.mkFinding (apis.MsgText "Traffic targets sum to 150, want 100")
        ["traffic"] []].
Proof.
  assert (H1 : Traffic overweightSpec <> []) by discriminate.
  assert (H2 : runningTotal (Traffic overweightSpec) <> 100%Z)
    by (vm_compute; discriminate).
  split; [exact H1|]. split; [exact H2|].
  exact (proj1 (proj2 (proj2
           (proj1 (out_of_bounds_weights_counted unit Sample.CheckDeprecated
                     Sample.IsQualifiedName Sample.Quote tt)
              overweightSpec H1))) H2).
Defined.

Lemma running_total_wrapped_sum_witness :
  isZeroRouteSpec overflowSpec = false
  /\ percentSum (finalState unit Sample.CheckDeprecated Sample.IsQualifiedName
                   Sample.Quote tt overflowSpec) = 100%Z
  /\ apis.ofKind apis.SumMismatch (sampleSpec overflowSpec) = [].
Proof.
  split; [reflexivity|]. split.
  - exact (proj1 (running_total_wrapped_sum unit Sample.CheckDeprecated
                    Sample.IsQualifiedName Sample.Quote tt overflowSpec)).
  - exact (proj1 (proj2 (proj2 (proj2
             (running_total_wrapped_sum unit Sample.CheckDeprecated
                Sample.IsQualifiedName Sample.Quote tt overflowSpec)))
             eq_refl) eq_refl).
Defined.

Lemma duplicate_count_witness :
  isZeroRouteSpec repeatedNameSpec = false
  /\ (length (apis.ofKind apis.DuplicateDefinition (sampleSpec repeatedNameSpec))
      + size (list_to_set (namesOf (Traffic repeatedNameSpec)) : gset string)
      = 0 + 4)%nat.
Proof.
  split; [reflexivity|].
  exact (duplicate_count unit Sample.CheckDeprecated Sample.IsQualifiedName
           Sample.Quote tt repeatedNameSpec eq_refl).
Defined.

Lemma spec_findings_in_order_witness :
  isZeroRouteSpec repeatedNameSpec = false
  /\ sampleSpec repeatedNameSpec =
     Sample.CheckDeprecated tt [("generation", DeprecatedGeneration repeatedNameSpec)]
     ++ findingsFrom unit Sample.IsQualifiedName Sample.Quote tt
          (Traffic repeatedNameSpec) 0 (Traffic repeatedNameSpec)
     ++ [].
Proof.
  split; [reflexivity|].
  exact (spec_findings_in_order unit Sample.CheckDeprecated Sample.IsQualifiedName
           Sample.Quote tt repeatedNameSpec eq_refl).
Defined.

Lemma target_findings_surface_witness :
  Traffic outOfBoundsSpec !! 0%nat =
    Some (mkTrafficTarget EmptyString "blue" EmptyString 150 EmptyString)
  /\ In (apis.mkFinding (apis.MsgOutOfBoundsValue 150 0 100) ["percent"] [])
        (sampleTarget (mkTrafficTarget EmptyString "blue" EmptyString 150 EmptyString))
  /\ In (apis.mkFinding (apis.MsgOutOfBoundsValue 150 0 100) ["traffic[0].percent"] [])
        (sampleSpec outOfBoundsSpec).
Proof.
  assert (H : In (apis.mkFinding (apis.MsgOutOfBoundsValue 150 0 100) ["percent"] [])
                 (sampleTarget
                    (mkTrafficTarget EmptyString "blue" EmptyString 150 EmptyString)))
    by (left; reflexivity).
  split; [reflexivity|]. split; [exact H|].
  exact (target_findings_surface unit Sample.CheckDeprecated Sample.IsQualifiedName
           Sample.Quote tt outOfBoundsSpec 0%nat _ _ eq_refl H).
Defined.

Lemma sum_check_order_independent_witness :
  Permutation (Traffic unevenSpec)
    [mkTrafficTarget EmptyString "green" EmptyString 30 EmptyString;
     mkTrafficTarget EmptyString "blue" EmptyString 60 EmptyString]
  /\ apis.ofKind apis.SumMismatch (sampleSpec unevenSpec) =
     apis.ofKind apis.SumMismatch
       (sampleSpec
          (mkRouteSpec 0
             [mkTrafficTarget EmptyString "green" EmptyString 30 EmptyString;
              mkTrafficTarget EmptyString "blue" EmptyString 60 EmptyString])).
Proof.
  assert (H : Permutation (Traffic unevenSpec)
                [mkTrafficTarget EmptyString "green" EmptyString 30 EmptyString;
                 mkTrafficTarget EmptyString "blue" EmptyString 60 EmptyString])
    by apply perm_swap.
  split; [exact H|].
  exact (sum_check_order_independent unit Sample.CheckDeprecated Sample.IsQualifiedName
           Sample.Quote tt unevenSpec
           (mkRouteSpec 0
              [mkTrafficTarget EmptyString "green" EmptyString 30 EmptyString;
               mkTrafficTarget EmptyString "blue" EmptyString 60 EmptyString])
           H eq_refl).
Defined.

Lemma bounded_weights_sum_check_witness :
  Traffic evenSpec <> []
  /\ Forall (fun t => (0 <= Percent t <= 100)%Z) (Traffic evenSpec)
  /\ (apis.ofKind apis.SumMismatch (sampleSpec evenSpec) = []
      <-> sumOfWeights (Traffic evenSpec) = 100%Z).
Proof.
  assert (H1 : Traffic evenSpec <> []) by discriminate.
  assert (H2 : Forall (fun t => (0 <= Percent t <= 100)%Z) (Traffic evenSpec))
    by (repeat constructor; simpl; lia).
  assert (H3 : (100 * Z.of_nat (length (Traffic evenSpec)) <= goint.maxInt)%Z)
    by (vm_compute; discriminate).
  split; [exact H1|]. split; [exact H2|].
  exact (bounded_weights_sum_check unit Sample.CheckDeprecated Sample.IsQualifiedName
           Sample.Quote tt evenSpec H1 H2 H3 eq_refl).
Defined.

Lemma spec_adds_known_kinds_witness :
  isZeroRouteSpec repeatedNameSpec = false
  /\ exists own : FieldError,
       sampleSpec repeatedNameSpec =
         Sample.CheckDeprecated tt
           [("generation", DeprecatedGeneration repeatedNameSpec)] ++ own
       /\ apis.ofKind apis.MissingField own = []
       /\ forall e, In e own -> exists k, apis.kindOf e = Some k /\ ownKind k.
Proof.
  split; [reflexivity|].
  exact (spec_adds_known_kinds unit Sample.CheckDeprecated Sample.IsQualifiedName
           Sample.Quote tt repeatedNameSpec eq_refl).
Defined.

Lemma spec_paths_under_traffic_witness :
  isZeroRouteSpec repeatedNameSpec = false
  /\ exists own : FieldError,
       sampleSpec repeatedNameSpec =
         Sample.CheckDeprecated tt
           [("generation", DeprecatedGeneration repeatedNameSpec)] ++ own
       /\ forall e path, In e own -> In path (apis.Paths e) ->
            String.prefix "traffic" path = true.
Proof.
  split; [reflexivity|].
  exact (spec_paths_under_traffic unit Sample.CheckDeprecated Sample.IsQualifiedName
           Sample.Quote tt repeatedNameSpec eq_refl).
Defined.

Lemma accepted_route_sound_witness :
  sampleRoute (mkRoute unit tt evenSpec) = apis.absent
  /\ NoDup (namesOf (Traffic evenSpec))
  /\ sumOfWeights (Traffic evenSpec) = 100%Z.
Proof.
  assert (Hl : (100 * Z.of_nat (length (Traffic evenSpec)) <= goint.maxInt)%Z)
    by (vm_compute; discriminate).
  split; [reflexivity|].
  exact (proj2 (proj2 (accepted_route_sound unit (fun ctx => ctx) unit
                         (fun _ => apis.absent) Sample.CheckDeprecated
                         Sample.IsQualifiedName Sample.Quote tt
                         (mkRoute unit tt evenSpec) eq_refl Hl))).
Defined.

(** ** The scenarios of the specification *)

Example scenario_B_even_split :
  sampleSpec
    (mkRouteSpec 0
       [mkTrafficTarget EmptyString "blue" EmptyString 50 EmptyString;
        mkTrafficTarget EmptyString EmptyString "main" 50 EmptyString]) = apis.absent.
Proof. vm_compute. reflexivity. Qed.

Example scenario_C_both_references :
  sampleSpec
    (mkRouteSpec 0 [mkTrafficTarget EmptyString "blue" "main" 100 EmptyString]) =
  [apis.mkFinding apis.MsgMultipleOneOf
     ["traffic[0].revisionName"; "traffic[0].configurationName"] []].
Proof. vm_compute. reflexivity. Qed.

Example scenario_D_same_name_twice :
  sampleSpec
    (mkRouteSpec 0
       [mkTrafficTarget "a" "blue" EmptyString 50 EmptyString;
        mkTrafficTarget "a" "green" EmptyString 50 EmptyString]) =
  [apis.mkFinding (apis.MsgText ("Multiple definitions for " +:+ Sample.Quote "a"))
     ["traffic[0].name"; "traffic[1].name"] []].
Proof. vm_compute. reflexivity. Qed.

Example scenario_E_weight_150 :
  sampleTarget (mkTrafficTarget EmptyString "blue" EmptyString 150 EmptyString) =
  [apis.mkFinding (apis.MsgOutOfBoundsValue 150 0 100) ["percent"] []].
Proof. vm_compute. reflexivity. Qed.

Example scenario_F_url_given :
  sampleTarget (mkTrafficTarget EmptyString "blue" EmptyString 100 "example.com") =
  [apis.mkFinding apis.MsgDisallowedFields ["url"] []].
Proof. vm_compute. reflexivity. Qed.
